(** * job_aware_switch: an HTCondor job-aware OpenFlow switch

    A shallow embedding of [job_aware_switch.py] (class [JobAwareSwitch])
    and the properties of its packet handler.  The handler is stateful: it
    mutates the per-switch [macToPort] dictionary, sends OpenFlow messages
    on its connection, queries an external oracle over a socket and reads
    the HTCondor configuration; any of the dictionary lookups and external
    calls may raise.  The embedding threads the switch object through a
    small state-and-exception monad and takes the external collaborators
    (configuration, socket transport, ClassAd parser) as a record. *)

From stdpp Require Import gmap strings list fin_maps pretty.
From Stdlib Require Import ZArith Ascii String.

Local Open Scope string_scope.
Local Open Scope Z_scope.

(** ** Python string operations used by the handler *)

Module Py.

(** [s.split(sep)] for a one-character separator: one piece more than
    there are separators, so the result is never empty. *)
Fixpoint split (sep : ascii) (s : string) : list string :=
  match s with
  | EmptyString => [EmptyString]
  | String c s' =>
      if Ascii.eqb c sep then EmptyString :: split sep s'
      else match split sep s' with
           | [] => [String c EmptyString]
           | piece :: rest => String c piece :: rest
           end
  end.

(** The characters [str.strip()] removes: space, tab, line feed,
    vertical tab, form feed and carriage return. *)
Definition isspace (c : ascii) : bool :=
  let n := nat_of_ascii c in
  ((n =? 32) || ((9 <=? n) && (n <=? 13)))%nat.

Fixpoint lstrip (s : string) : string :=
  match s with
  | EmptyString => EmptyString
  | String c s' => if isspace c then lstrip s' else s
  end.

Fixpoint rstrip (s : string) : string :=
  match s with
  | EmptyString => EmptyString
  | String c s' =>
      match rstrip s' with
      | EmptyString => if isspace c then EmptyString else String c EmptyString
      | t => String c t
      end
  end.

Definition strip (s : string) : string := rstrip (lstrip s).

(** [sep.join(pieces)] *)
Fixpoint join (sep : string) (pieces : list string) : string :=
  match pieces with
  | [] => EmptyString
  | [p] => p
  | p :: rest => p ++ sep ++ join sep rest
  end.

(** [x in l] on a list of strings *)
Definition contains (x : string) (l : list string) : bool :=
  existsb (String.eqb x) l.

(** ["%02x" % b] for a byte [b] *)
Definition hex_digit (d : Z) : ascii :=
  if d <? 10 then ascii_of_nat (Z.to_nat (48 + d))
  else ascii_of_nat (Z.to_nat (87 + d)).

Definition hex02 (b : Z) : string :=
  String (hex_digit (Z.land (Z.shiftr b 4) 15))
    (String (hex_digit (Z.land b 15)) EmptyString).

(** [str(n)] for a natural number *)
Definition str_int (n : Z) : string := pretty (Z.to_N n).

End Py.

Definition LF : ascii := ascii_of_nat 10.
Definition COMMA : ascii := ascii_of_nat 44.

(** ** Addresses and parsed frames (POX [pox.lib.packet]) *)

(** An Ethernet address is a 48-bit value, an IPv4 address a 32-bit value
    (most significant octet first); ports and ethertypes are 16-bit. *)
Definition EthAddr := Z.
Definition IPAddr := Z.

(** [str(addr)] for an [IPAddr]: the dotted quad. *)
Definition IPAddr_str (a : IPAddr) : string :=
  Py.join "." (map (fun i => Py.str_int (Z.land (Z.shiftr a (8 * i)) 255)) [3; 2; 1; 0]).

Definition IP_TYPE : Z := 0x0800.
Definition VLAN_TYPE : Z := 0x8100.
Definition LLDP_TYPE : Z := 0x88cc.

Record tcp := { dstport : Z }.

Record ipv4 := { srcip : IPAddr; dstip : IPAddr; ipv4_next : option tcp }.

(** What the Ethernet parser hangs below the header.  The parser picks the
    payload class by ethertype, so an LLDP frame (ethertype [LLDP_TYPE])
    never carries an [ipv4] header, while a VLAN tag may. *)
Inductive payload :=
| ipv4_payload (ip : ipv4)
| vlan_payload (next : payload)
| raw_payload (ethertype : Z).

Record ethernet := { src : EthAddr; dst : EthAddr; next : payload }.

(** [packet.type] *)
Definition type (packet : ethernet) : Z :=
  match next packet with
  | ipv4_payload _ => IP_TYPE
  | vlan_payload _ => VLAN_TYPE
  | raw_payload t => t
  end.

(** [packet.find('ipv4')] and [packet.find('tcp')] walk the chain of
    payloads. *)
Fixpoint find_ipv4_in (p : payload) : option ipv4 :=
  match p with
  | ipv4_payload ip => Some ip
  | vlan_payload p' => find_ipv4_in p'
  | raw_payload _ => None
  end.

Definition find_ipv4 (packet : ethernet) : option ipv4 := find_ipv4_in (next packet).

Definition find_tcp (packet : ethernet) : option tcp :=
  match find_ipv4 packet with
  | Some ip => ipv4_next ip
  | None => None
  end.

(** The [PacketIn] event: [event.parsed], [event.port],
    [event.ofp.buffer_id] ([None] is [NO_BUFFER]). *)
Record PacketIn := { parsed : ethernet; port : Z; ofp_buffer_id : option Z }.

(** ** OpenFlow messages (POX [libopenflow_01]) *)

Definition OFPP_FLOOD : Z := 0xfffb.
Definition OFPP_NONE : Z := 0xffff.
Definition OFP_DEFAULT_PRIORITY : Z := 0x8000.

Inductive ofp_action := ofp_action_output (out_port : Z).

(** The match fields the handler assigns ([None] is a wildcard), and
    [attrs], the plain attributes of the match object: an assignment to a
    name that is no match field lands there and is not part of the match
    sent to the switch. *)
Record ofp_match := {
  dl_src : option EthAddr;
  dl_dst : option EthAddr;
  dl_type : option Z;
  nw_src : option IPAddr;
  nw_dst : option IPAddr;
  tp_dst : option Z;
  attrs : gmap string Z
}.

(** [ofp_match()]: everything wildcarded. *)
Definition ofp_match_new : ofp_match :=
  {| dl_src := None; dl_dst := None; dl_type := None; nw_src := None;
     nw_dst := None; tp_dst := None; attrs := ∅ |}.

Record ofp_flow_mod := {
  priority : Z;
  match_ : ofp_match;
  idle_timeout : Z;
  hard_timeout : Z;
  actions : list ofp_action;
  buffer_id : option Z
}.

(** [ofp_flow_mod()]: the constructor's defaults, a permanent rule
    (timeouts 0) at the default priority with no action. *)
Definition ofp_flow_mod_new : ofp_flow_mod :=
  {| priority := OFP_DEFAULT_PRIORITY; match_ := ofp_match_new;
     idle_timeout := 0; hard_timeout := 0; actions := []; buffer_id := None |}.

Record ofp_packet_out := {
  po_actions : list ofp_action;
  po_buffer_id : option Z;
  po_in_port : Z
}.

Definition ofp_packet_out_new : ofp_packet_out :=
  {| po_actions := []; po_buffer_id := None; po_in_port := OFPP_NONE |}.

Inductive ofp_message :=
| FlowMod (msg : ofp_flow_mod)
| PacketOut (msg : ofp_packet_out).

(** Attribute assignments, one function per assigned attribute. *)
Definition set_dl_src v (m : ofp_match) : ofp_match :=
  {| dl_src := Some v; dl_dst := dl_dst m; dl_type := dl_type m; nw_src := nw_src m;
     nw_dst := nw_dst m; tp_dst := tp_dst m; attrs := attrs m |}.

Definition set_dl_dst v (m : ofp_match) : ofp_match :=
  {| dl_src := dl_src m; dl_dst := Some v; dl_type := dl_type m; nw_src := nw_src m;
     nw_dst := nw_dst m; tp_dst := tp_dst m; attrs := attrs m |}.

Definition set_dl_type v (m : ofp_match) : ofp_match :=
  {| dl_src := dl_src m; dl_dst := dl_dst m; dl_type := Some v; nw_src := nw_src m;
     nw_dst := nw_dst m; tp_dst := tp_dst m; attrs := attrs m |}.

Definition set_nw_src v (m : ofp_match) : ofp_match :=
  {| dl_src := dl_src m; dl_dst := dl_dst m; dl_type := dl_type m; nw_src := Some v;
     nw_dst := nw_dst m; tp_dst := tp_dst m; attrs := attrs m |}.

Definition set_nw_dst v (m : ofp_match) : ofp_match :=
  {| dl_src := dl_src m; dl_dst := dl_dst m; dl_type := dl_type m; nw_src := nw_src m;
     nw_dst := Some v; tp_dst := tp_dst m; attrs := attrs m |}.

Definition set_tp_dst v (m : ofp_match) : ofp_match :=
  {| dl_src := dl_src m; dl_dst := dl_dst m; dl_type := dl_type m; nw_src := nw_src m;
     nw_dst := nw_dst m; tp_dst := Some v; attrs := attrs m |}.

(** An assignment to a name that is no match field. *)
Definition set_attr (name : string) (v : Z) (m : ofp_match) : ofp_match :=
  {| dl_src := dl_src m; dl_dst := dl_dst m; dl_type := dl_type m; nw_src := nw_src m;
     nw_dst := nw_dst m; tp_dst := tp_dst m; attrs := <[name := v]> (attrs m) |}.

Definition set_priority v (msg : ofp_flow_mod) : ofp_flow_mod :=
  {| priority := v; match_ := match_ msg; idle_timeout := idle_timeout msg;
     hard_timeout := hard_timeout msg; actions := actions msg; buffer_id := buffer_id msg |}.

(** [msg.match.<field> = v], and [msg.match = m] with a constant [f]. *)
Definition on_match (f : ofp_match -> ofp_match) (msg : ofp_flow_mod) : ofp_flow_mod :=
  {| priority := priority msg; match_ := f (match_ msg); idle_timeout := idle_timeout msg;
     hard_timeout := hard_timeout msg; actions := actions msg; buffer_id := buffer_id msg |}.

Definition set_idle_timeout v (msg : ofp_flow_mod) : ofp_flow_mod :=
  {| priority := priority msg; match_ := match_ msg; idle_timeout := v;
     hard_timeout := hard_timeout msg; actions := actions msg; buffer_id := buffer_id msg |}.

Definition set_hard_timeout v (msg : ofp_flow_mod) : ofp_flow_mod :=
  {| priority := priority msg; match_ := match_ msg; idle_timeout := idle_timeout msg;
     hard_timeout := v; actions := actions msg; buffer_id := buffer_id msg |}.

(** [msg.actions.append(a)] *)
Definition actions_append a (msg : ofp_flow_mod) : ofp_flow_mod :=
  {| priority := priority msg; match_ := match_ msg; idle_timeout := idle_timeout msg;
     hard_timeout := hard_timeout msg; actions := actions msg ++ [a];
     buffer_id := buffer_id msg |}.

Definition set_buffer_id v (msg : ofp_flow_mod) : ofp_flow_mod :=
  {| priority := priority msg; match_ := match_ msg; idle_timeout := idle_timeout msg;
     hard_timeout := hard_timeout msg; actions := actions msg; buffer_id := v |}.

Definition po_actions_append a (msg : ofp_packet_out) : ofp_packet_out :=
  {| po_actions := po_actions msg ++ [a]; po_buffer_id := po_buffer_id msg;
     po_in_port := po_in_port msg |}.

Definition set_po_buffer_id v (msg : ofp_packet_out) : ofp_packet_out :=
  {| po_actions := po_actions msg; po_buffer_id := v; po_in_port := po_in_port msg |}.

Definition set_po_in_port v (msg : ofp_packet_out) : ofp_packet_out :=
  {| po_actions := po_actions msg; po_buffer_id := po_buffer_id msg; po_in_port := v |}.

(** [dpid_to_str(dpid)] for a 64-bit datapath id: the low six bytes in
    hexadecimal joined by dashes, followed by a bar and the high 16 bits in
    decimal when these are not zero. *)
Definition dpid_to_str (dpid : Z) : string :=
  let r := Py.join "-"
             (map (fun i => Py.hex02 (Z.land (Z.shiftr dpid (8 * i)) 255)) [5; 4; 3; 2; 1; 0]) in
  let high := Z.land (Z.shiftr dpid 48) 0xffff in
  if high =? 0 then r else r ++ "|" ++ Py.str_int high.

(** ** The switch object, its collaborators and its effects *)

(** [JobAwareSwitch]: the connection (its datapath id and, in order, what
    was sent on it) and the learning table [self.macToPort]. *)
Record JobAwareSwitch := {
  connection_dpid : Z;
  connection_sent : list ofp_message;
  macToPort : gmap EthAddr Z
}.

(** What the handler consults outside the program:
    - [htcondor_param]: the configuration [htcondor.param], read afresh
      at every use;
    - [sock_exchange host port request]: one socket conversation (connect
      to [host] at the port converted by [int] from the text [port], send
      [request], receive at most 1024 bytes, close); [None] when one of
      these steps raises;
    - [classad_ClassAd text]: the ClassAd parser, [None] when it raises;
      attribute values are read as strings;
    - [ofp_match_from_packet]: [ofp_match.from_packet], the exact match on
      a parsed frame. *)
Record Externals := {
  htcondor_param : gmap string string;
  sock_exchange : string -> string -> string -> option string;
  classad_ClassAd : string -> option (gmap string string);
  ofp_match_from_packet : ethernet -> ofp_match
}.

Inductive exn :=
| KeyError (key : string)
| IndexError
| socket_error
| ClassAdError.

Inductive outcome (A : Type) :=
| Returned (a : A)
| Raised (e : exn).
Arguments Returned {A} a.
Arguments Raised {A} e.

(** A computation that returns or raises. *)
#[export] Instance outcome_ret : MRet outcome := fun A a => Returned a.

#[export] Instance outcome_bind : MBind outcome := fun A B k c =>
  match c with
  | Returned a => k a
  | Raised e => Raised e
  end.

(** A computation on the switch object that returns or raises; the
    mutations made before an exception stay. *)
Definition M (A : Type) : Type := JobAwareSwitch -> outcome A * JobAwareSwitch.

#[export] Instance M_ret : MRet M := fun A a self => (Returned a, self).

#[export] Instance M_bind : MBind M := fun A B k c self =>
  match c self with
  | (Returned a, self') => k a self'
  | (Raised e, self') => (Raised e, self')
  end.

(** A step that neither reads nor changes the switch object. *)
Definition lift {A} (c : outcome A) : M A := fun self => (c, self).

(** [self.macToPort[mac] = port_no] *)
Definition macToPort_set (mac : EthAddr) (port_no : Z) : M unit := fun self =>
  (Returned tt,
   {| connection_dpid := connection_dpid self; connection_sent := connection_sent self;
      macToPort := <[mac := port_no]> (macToPort self) |}).

(** [self.macToPort.get(mac)], for [mac in self.macToPort] and
    [self.macToPort[mac]] *)
Definition macToPort_get (mac : EthAddr) : M (option Z) := fun self =>
  (Returned (macToPort self !! mac), self).

(** [self.connection.send(msg)] *)
Definition send (msg : ofp_message) : M unit := fun self =>
  (Returned tt,
   {| connection_dpid := connection_dpid self;
      connection_sent := connection_sent self ++ [msg];
      macToPort := macToPort self |}).

(** [self.connection.dpid] *)
Definition dpid : M Z := fun self => (Returned (connection_dpid self), self).

(** [d[key]] on a dictionary with string keys *)
Definition getitem {V} (d : gmap string V) (key : string) : outcome V :=
  match d !! key with
  | Some v => Returned v
  | None => Raised (KeyError key)
  end.

(** [l[i]] on a list *)
Definition index {A} (l : list A) (i : nat) : outcome A :=
  match l !! i with
  | Some a => Returned a
  | None => Raised IndexError
  end.

(** ** The program *)

Definition HARD_TIMEOUT : Z := 10.
Definition IDLE_TIMEOUT : Z := 5.

Definition core_switch_mac : string := "00-1e-68-04-1c-20".

Section JobAwareSwitch.

Variable ext : Externals.

Definition param (key : string) : outcome string := getitem (htcondor_param ext) key.

Definition get_ip_addr (packet : ethernet) : option IPAddr * option IPAddr :=
  match find_ipv4 packet with
  | Some ipv4pkt => (Some (srcip ipv4pkt), Some (dstip ipv4pkt))
  | None => (None, None)
  end.

Definition l2_learning (event : PacketIn) (packet : ethernet) : M unit :=
  known ← macToPort_get (dst packet);
  match known with
  | None =>
      let msg := ofp_packet_out_new in
      let msg := po_actions_append (ofp_action_output OFPP_FLOOD) msg in
      let msg := set_po_buffer_id (ofp_buffer_id event) msg in
      let msg := set_po_in_port (port event) msg in
      send (PacketOut msg)
  | Some port_no =>
      if port_no =? port event then
        let msg := ofp_flow_mod_new in
        let msg := on_match (fun _ => ofp_match_from_packet ext packet) msg in
        let msg := set_idle_timeout IDLE_TIMEOUT msg in
        let msg := set_hard_timeout HARD_TIMEOUT msg in
        let msg := set_buffer_id (ofp_buffer_id event) msg in
        send (FlowMod msg)
      else
        let msg := ofp_flow_mod_new in
        let msg := set_priority 10 msg in
        let msg := on_match (set_dl_src (src packet)) msg in
        let msg := on_match (set_dl_dst (dst packet)) msg in
        let msg := set_idle_timeout IDLE_TIMEOUT msg in
        let msg := set_hard_timeout HARD_TIMEOUT msg in
        let msg := actions_append (ofp_action_output port_no) msg in
        let msg := set_buffer_id (ofp_buffer_id event) msg in
        send (FlowMod msg)
  end.

Definition request_network_classad (ipv4addr : IPAddr) : outcome string :=
  HOST ← param "HTCONDOR_MODULE_HOST";
  PORT ← param "HTCONDOR_MODULE_PORT";
  match sock_exchange ext HOST PORT ("REQUEST" ++ String LF (IPAddr_str ipv4addr)) with
  | Some data => Returned (Py.strip data)
  | None => Raised socket_error
  end.

Definition str_to_classad (lines : list string) : outcome (gmap string string) :=
  let network_classad :=
    fold_left (fun acc line => acc ++ line) (drop 1 lines) EmptyString in
  match classad_ClassAd ext network_classad with
  | Some ad => Returned ad
  | None => Raised ClassAdError
  end.

(** The core switch: a single hard-coded rule (owner, TCP port 80). *)
Definition handle_packet_for_core_switch (event : PacketIn) (packet : ethernet) : M unit :=
  let ipv4addr := get_ip_addr packet in
  let ipv4src := fst ipv4addr in
  let ipv4dst := snd ipv4addr in
  match ipv4src with
  | Some ipv4src =>
      received ← lift (request_network_classad ipv4src);
      let lines := Py.split LF received in
      line0 ← lift (index lines 0);
      if String.eqb line0 "FOUND" then
        network_classad ← lift (str_to_classad lines);
        owner ← lift (getitem network_classad "Owner");
        let tcppkt := find_tcp packet in
        let tcpdstp := match tcppkt with Some t => dstport t | None => 0 end in
        if String.eqb owner "zzhang" && (tcpdstp =? 80) then
          let msg := ofp_flow_mod_new in
          let msg := set_priority 12 msg in
          let msg := on_match (set_dl_type 0x800) msg in
          let msg := on_match (set_nw_src ipv4src) msg in
          let msg := on_match (set_tp_dst 80) msg in
          let msg := on_match (set_attr "hard_timeout" HARD_TIMEOUT) msg in
          let msg := on_match (set_attr "idle_timeout" IDLE_TIMEOUT) msg in
          let msg := set_buffer_id (ofp_buffer_id event) msg in
          send (FlowMod msg)
        else l2_learning event packet
      else l2_learning event packet
  | None => l2_learning event packet
  end.

Definition _handle_PacketIn (event : PacketIn) : M unit :=
  let packet := parsed event in
  macToPort_set (src packet) (port event);;
  (if type packet =? LLDP_TYPE then
     let msg := ofp_packet_out_new in
     let msg := set_po_buffer_id (ofp_buffer_id event) msg in
     let msg := set_po_in_port (port event) msg in
     send (PacketOut msg)
   else mret tt);;
  connection_dpid ← dpid;
  let connected_switch_mac := dpid_to_str connection_dpid in
  if String.eqb connected_switch_mac core_switch_mac then
    handle_packet_for_core_switch event packet
  else
  let ipv4addr := get_ip_addr packet in
  let ipv4src := fst ipv4addr in
  let ipv4dst := snd ipv4addr in
  match ipv4src with
  | Some ipv4src =>
      received ← lift (request_network_classad ipv4src);
      let lines := Py.split LF received in
      line0 ← lift (index lines 0);
      if String.eqb line0 "FOUND" then
        network_classad ← lift (str_to_classad lines);
        owner ← lift (getitem network_classad "Owner");
        blocked_users ← lift (param "BLOCKED_USERS");
        let blocked_users := Py.split COMMA blocked_users in
        if Py.contains owner blocked_users then
          let msg := ofp_flow_mod_new in
          let msg := set_priority 12 msg in
          let msg := on_match (set_nw_src ipv4src) msg in
          let msg := on_match (set_dl_src (src packet)) msg in
          let msg := set_idle_timeout IDLE_TIMEOUT msg in
          let msg := set_hard_timeout HARD_TIMEOUT msg in
          let msg := set_buffer_id (ofp_buffer_id event) msg in
          send (FlowMod msg)
        else
          blocked_users ← lift (param "BLOCKED_USERS_OUTSIDE");
          let blocked_users := Py.split COMMA blocked_users in
          if Py.contains owner blocked_users then
            (* case 1 *)
            match ipv4dst with
            | Some ipv4dst =>
                received ← lift (request_network_classad ipv4dst);
                let lines := Py.split LF received in
                line0 ← lift (index lines 0);
                if String.eqb line0 "FOUND" then
                  network_classad ← lift (str_to_classad lines);
                  owner_dst ← lift (getitem network_classad "Owner");
                  if negb (String.eqb owner owner_dst) then
                    let msg := ofp_flow_mod_new in
                    let msg := set_priority 12 msg in
                    let msg := on_match (set_nw_src ipv4src) msg in
                    let msg := on_match (set_dl_src (src packet)) msg in
                    let msg := on_match (set_nw_dst ipv4dst) msg in
                    let msg := set_idle_timeout IDLE_TIMEOUT msg in
                    let msg := set_hard_timeout HARD_TIMEOUT msg in
                    let msg := set_buffer_id (ofp_buffer_id event) msg in
                    send (FlowMod msg)
                  else l2_learning event packet
                else
                  white_list_ip ← lift (param "WHITE_LIST_IP");
                  let white_list_ip := Py.split COMMA white_list_ip in
                  if negb (Py.contains (IPAddr_str ipv4dst) white_list_ip) then
                    let msg := ofp_flow_mod_new in
                    let msg := set_priority 12 msg in
                    let msg := on_match (set_nw_src ipv4src) msg in
                    let msg := on_match (set_dl_src (src packet)) msg in
                    let msg := on_match (set_nw_dst ipv4dst) msg in
                    let msg := set_idle_timeout IDLE_TIMEOUT msg in
                    let msg := set_hard_timeout HARD_TIMEOUT msg in
                    let msg := set_buffer_id (ofp_buffer_id event) msg in
                    send (FlowMod msg)
                  else l2_learning event packet
            | None => l2_learning event packet
            end
          else
            (* case 2 *)
            match ipv4dst with
            | Some ipv4dst =>
                received ← lift (request_network_classad ipv4dst);
                let lines := Py.split LF received in
                line0 ← lift (index lines 0);
                if String.eqb line0 "FOUND" then
                  network_classad ← lift (str_to_classad lines);
                  owner_dst ← lift (getitem network_classad "Owner");
                  if negb (String.eqb owner owner_dst) then
                    let msg := ofp_flow_mod_new in
                    let msg := set_priority 12 msg in
                    let msg := on_match (set_nw_src ipv4src) msg in
                    let msg := on_match (set_dl_src (src packet)) msg in
                    let msg := on_match (set_nw_dst ipv4dst) msg in
                    let msg := set_idle_timeout IDLE_TIMEOUT msg in
                    let msg := set_hard_timeout HARD_TIMEOUT msg in
                    let msg := set_buffer_id (ofp_buffer_id event) msg in
                    send (FlowMod msg)
                  else l2_learning event packet
                else l2_learning event packet
            | None => l2_learning event packet
            end
      else l2_learning event packet
  | None => l2_learning event packet
  end.

End JobAwareSwitch.

(** ** Vocabulary of the specification *)

(** The oracle's answer for an address. *)
Inductive OracleResponse :=
| Found (owner : string)
| NotFound.

Inductive suppressionScope := srcOnly | srcAndDst.

Inductive PolicyDecision :=
| Allow
| Drop (scope : suppressionScope).

(** [resolve(ip)]: the steps by which the handlers read an answer of the
    oracle, in their order: the request, the split into lines, the
    sentinel on the first line and, on [FOUND], the parse and the lookup
    of [Owner]. *)
Definition resolve (ext : Externals) (ip : IPAddr) : outcome OracleResponse :=
  received ← request_network_classad ext ip;
  let lines := Py.split LF received in
  line0 ← index lines 0;
  if String.eqb line0 "FOUND" then
    network_classad ← str_to_classad ext lines;
    owner ← getitem network_classad "Owner";
    mret (Found owner)
  else mret NotFound.

(** A comma-separated configuration list. *)
Definition config_list (ext : Externals) (key : string) : outcome (list string) :=
  v ← param ext key; mret (Py.split COMMA v).

(** The switch role: the connection is the one of the core switch. *)
Definition is_core_switch (self : JobAwareSwitch) : bool :=
  String.eqb (dpid_to_str (connection_dpid self)) core_switch_mac.

(** The switch object once the frame's source is learned, and once
    further messages are sent. *)
Definition learned (event : PacketIn) (self : JobAwareSwitch) : JobAwareSwitch :=
  {| connection_dpid := connection_dpid self;
     connection_sent := connection_sent self;
     macToPort := <[src (parsed event) := port event]> (macToPort self) |}.

Definition sent_more (msgs : list ofp_message) (self : JobAwareSwitch) : JobAwareSwitch :=
  {| connection_dpid := connection_dpid self;
     connection_sent := connection_sent self ++ msgs;
     macToPort := macToPort self |}.

(** The suppression rule of a policy Drop on an edge switch. *)
Definition suppression_rule (scope : suppressionScope) (event : PacketIn) (ip : ipv4)
  : ofp_flow_mod :=
  {| priority := 12;
     match_ := {| dl_src := Some (src (parsed event)); dl_dst := None; dl_type := None;
                  nw_src := Some (srcip ip);
                  nw_dst := match scope with
                            | srcOnly => None
                            | srcAndDst => Some (dstip ip)
                            end;
                  tp_dst := None; attrs := ∅ |};
     idle_timeout := 5; hard_timeout := 10; actions := [];
     buffer_id := ofp_buffer_id event |}.

(** The three commands of the L2 forwarding decision. *)
Definition flood_packet_out (event : PacketIn) : ofp_message :=
  PacketOut {| po_actions := [ofp_action_output OFPP_FLOOD];
               po_buffer_id := ofp_buffer_id event; po_in_port := port event |}.

Definition loop_drop_rule (ext : Externals) (event : PacketIn) (packet : ethernet)
  : ofp_message :=
  FlowMod {| priority := OFP_DEFAULT_PRIORITY; match_ := ofp_match_from_packet ext packet;
             idle_timeout := 5; hard_timeout := 10; actions := [];
             buffer_id := ofp_buffer_id event |}.

Definition directed_rule (event : PacketIn) (packet : ethernet) (out : Z) : ofp_message :=
  FlowMod {| priority := 10;
             match_ := {| dl_src := Some (src packet); dl_dst := Some (dst packet);
                          dl_type := None; nw_src := None; nw_dst := None;
                          tp_dst := None; attrs := ∅ |};
             idle_timeout := 5; hard_timeout := 10;
             actions := [ofp_action_output out]; buffer_id := ofp_buffer_id event |}.

(** The no-action packet-out that acknowledges an LLDP frame. *)
Definition lldp_ack (event : PacketIn) : ofp_message :=
  PacketOut {| po_actions := []; po_buffer_id := ofp_buffer_id event;
               po_in_port := port event |}.

(** The reads and tests of the edge-tier handler in their order, as a
    computation of the decision: a device of the proofs below.  It raises
    where the handler raises, a missing configuration list included. *)
Definition spec_edge_policy (ext : Externals) (ip : ipv4) : outcome PolicyDecision :=
  source ← resolve ext (srcip ip);
  match source with
  | NotFound => mret Allow
  | Found owner =>
      BlockedUsers ← config_list ext "BLOCKED_USERS";
      if Py.contains owner BlockedUsers then mret (Drop srcOnly)
      else
        BlockedUsersOutside ← config_list ext "BLOCKED_USERS_OUTSIDE";
        destination ← resolve ext (dstip ip);
        if Py.contains owner BlockedUsersOutside then
          match destination with
          | Found owner_dst =>
              if String.eqb owner owner_dst then mret Allow else mret (Drop srcAndDst)
          | NotFound =>
              WhitelistIPs ← config_list ext "WHITE_LIST_IP";
              if Py.contains (IPAddr_str (dstip ip)) WhitelistIPs then mret Allow
              else mret (Drop srcAndDst)
          end
        else
          match destination with
          | Found owner_dst =>
              if String.eqb owner owner_dst then mret Allow else mret (Drop srcAndDst)
          | NotFound => mret Allow
          end
  end.

(** The command a decision is turned into. *)
Definition emit (ext : Externals) (event : PacketIn) (ip : ipv4)
  (decision : outcome PolicyDecision) : M unit :=
  match decision with
  | Returned Allow => l2_learning ext event (parsed event)
  | Returned (Drop scope) => send (FlowMod (suppression_rule scope event ip))
  | Raised e => lift (Raised e)
  end.

(** What it means that the handler, on an event, decided [Allow] (it left
    the frame to the L2 forwarding decision) or [Drop] (it installed the
    suppression rule of that scope and nothing else). *)
Definition decides (ext : Externals) (event : PacketIn) (self : JobAwareSwitch)
  (decision : PolicyDecision) : Prop :=
  match decision with
  | Allow =>
      _handle_PacketIn ext event self
      = l2_learning ext event (parsed event) (learned event self)
  | Drop scope =>
      ∃ ip, find_ipv4 (parsed event) = Some ip ∧
        _handle_PacketIn ext event self
        = (Returned tt, sent_more [FlowMod (suppression_rule scope event ip)] (learned event self))
  end.

(** A Drop of any tier: the event ends, without an exception, in exactly
    one command, a flow-mod of priority 12 without actions. *)
Definition policy_drop (ext : Externals) (event : PacketIn) (self : JobAwareSwitch)
  (msg : ofp_flow_mod) : Prop :=
  _handle_PacketIn ext event self = (Returned tt, sent_more [FlowMod msg] (learned event self))
  ∧ priority msg = 12 ∧ actions msg = [].

(** The core-tier rule as installed: the timeout constants are assigned
    to attributes of the match object. *)
Definition core_drop_rule (event : PacketIn) (ip : ipv4) : ofp_flow_mod :=
  {| priority := 12;
     match_ := {| dl_src := None; dl_dst := None; dl_type := Some 0x800;
                  nw_src := Some (srcip ip); nw_dst := None; tp_dst := Some 80;
                  attrs := <["idle_timeout" := 5]> (<["hard_timeout" := 10]> ∅) |};
     idle_timeout := 0; hard_timeout := 0; actions := [];
     buffer_id := ofp_buffer_id event |}.

(** The core-tier decision: the single hard-coded rule matches or not. *)
Definition spec_core_policy (ext : Externals) (packet : ethernet) (ip : ipv4) : outcome bool :=
  source ← resolve ext (srcip ip);
  match source with
  | NotFound => mret false
  | Found owner =>
      mret (String.eqb owner "zzhang"
            && (match find_tcp packet with Some t => dstport t | None => 0 end =? 80))
  end.

(** The configuration of [ext] with every answer of the oracle whose
    first line is not [FOUND] replaced by the answer [NOFOUND]. *)
Definition is_FOUND (received : string) : bool :=
  match Py.split LF received !! 0%nat with
  | Some line0 => String.eqb line0 "FOUND"
  | None => false
  end.

Definition answering_NOFOUND (ext : Externals) : Externals :=
  {| htcondor_param := htcondor_param ext;
     sock_exchange := fun host port_text request =>
       match sock_exchange ext host port_text request with
       | Some data => if is_FOUND (Py.strip data) then Some data else Some "NOFOUND"
       | None => None
       end;
     classad_ClassAd := classad_ClassAd ext;
     ofp_match_from_packet := ofp_match_from_packet ext |}.

(** ** A small installation to run the handler on

    An oracle that answers from a directory (address text to raw answer,
    [NOFOUND] for an address it does not list), a parser for ClassAds of
    one quoted string attribute, and a configuration. *)
Module Testbed.

Definition DQ : ascii := ascii_of_nat 34.

Definition ad_text (name value : string) : string :=
  "[ " ++ name ++ " = " ++ String DQ (value ++ String DQ " ]").

Definition answer_FOUND (name value : string) : string :=
  "FOUND" ++ String LF (ad_text name value ++ String LF EmptyString).

Fixpoint until (stop : ascii) (s : string) : string * string :=
  match s with
  | EmptyString => (EmptyString, EmptyString)
  | String c s' =>
      if Ascii.eqb c stop then (EmptyString, s)
      else let '(taken, rest) := until stop s' in (String c taken, rest)
  end.

Definition ClassAd (text : string) : option (gmap string string) :=
  match text with
  | String "[" (String " " s) =>
      let '(name, s) := until " "%char s in
      match s with
      | String " " (String "=" (String " " (String q s))) =>
          if Ascii.eqb q DQ then
            let '(value, s) := until DQ s in
            if String.eqb s (String DQ " ]") then Some {[ name := value ]} else None
          else None
      | _ => None
      end
  | _ => None
  end.

Definition from_packet (packet : ethernet) : ofp_match :=
  let m := set_dl_dst (dst packet) (set_dl_src (src packet) ofp_match_new) in
  let m := set_dl_type (type packet) m in
  match next packet with
  | ipv4_payload ip =>
      let m := set_nw_dst (dstip ip) (set_nw_src (srcip ip) m) in
      match ipv4_next ip with
      | Some t => set_tp_dst (dstport t) m
      | None => m
      end
  | _ => m
  end.

Definition installation (directory config : gmap string string) : Externals :=
  {| htcondor_param := config;
     sock_exchange := fun host port_text request =>
       match Py.split LF request with
       | [_; addr] => Some (default "NOFOUND" (directory !! addr))
       | _ => None
       end;
     classad_ClassAd := ClassAd;
     ofp_match_from_packet := from_packet |}.

Definition config : gmap string string :=
  {[ "HTCONDOR_MODULE_HOST" := "localhost"; "HTCONDOR_MODULE_PORT" := "9999";
     "BLOCKED_USERS" := "bob,carol"; "BLOCKED_USERS_OUTSIDE" := "dave";
     "WHITE_LIST_IP" := "203.0.113.4" ]}.

Definition directory : gmap string string :=
  {[ "10.0.0.5" := answer_FOUND "Owner" "alice";
     "10.0.0.9" := answer_FOUND "Owner" "alice";
     "10.0.0.6" := answer_FOUND "Owner" "bob";
     "10.0.0.7" := answer_FOUND "Owner" "dave";
     "10.0.0.8" := answer_FOUND "JobId" "7";
     "10.0.0.10" := answer_FOUND "Owner" "zzhang";
     "10.0.0.11" := "MAYBE" ]}.

Definition ext : Externals := installation directory config.

Definition ip (a b c d : Z) : IPAddr :=
  Z.lor (Z.shiftl a 24) (Z.lor (Z.shiftl b 16) (Z.lor (Z.shiftl c 8) d)).

(** A switch with nothing sent yet, and an IPv4 frame from MAC 1 to
    MAC 2 arriving on port 1 in buffer 77. *)
Definition switch (datapath : Z) (table : gmap EthAddr Z) : JobAwareSwitch :=
  {| connection_dpid := datapath; connection_sent := []; macToPort := table |}.

Definition edge : Z := 5.
Definition core : Z := 0x001e68041c20.

Definition header (source destination : IPAddr) (l4 : option tcp) : ipv4 :=
  {| srcip := source; dstip := destination; ipv4_next := l4 |}.

Definition frame (ip : ipv4) : PacketIn :=
  {| parsed := {| src := 1; dst := 2; next := ipv4_payload ip |};
     port := 1; ofp_buffer_id := Some 77 |}.

Definition lldp_frame : PacketIn :=
  {| parsed := {| src := 1; dst := 0x0180c200000e; next := raw_payload LLDP_TYPE |};
     port := 1; ofp_buffer_id := Some 77 |}.

End Testbed.

(** ** The local network range (module level)

    [get_network_info] reads the kernel's routing table once at start-up
    and appends to the two global lists; [check_within_local_network]
    compares an address, octet by octet, with these lists. *)
Module LocalNetwork.

Inductive error := IOError | IndexError | ValueError.

Inductive res (A : Type) :=
| Ok (a : A)
| Err (e : error).
Arguments Ok {A} a.
Arguments Err {A} e.

#[export] Instance res_ret : MRet res := fun A a => Ok a.

#[export] Instance res_bind : MBind res := fun A B k c =>
  match c with
  | Ok a => k a
  | Err e => Err e
  end.

(** [l[i]] *)
Definition item {A} (l : list A) (i : nat) : res A :=
  match l !! i with
  | Some a => Ok a
  | None => Err IndexError
  end.

(** [s.split()]: the maximal runs of characters that are not whitespace. *)
Fixpoint split_ws (s : string) : list string :=
  match s with
  | EmptyString => []
  | String c s' =>
      if Py.isspace c then split_ws s'
      else match s' with
           | EmptyString => [String c EmptyString]
           | String c' _ =>
               if Py.isspace c' then String c EmptyString :: split_ws s'
               else match split_ws s' with
                    | w :: ws => String c w :: ws
                    | [] => [String c EmptyString]
                    end
           end
  end.

(** The value of a hexadecimal digit, in either case. *)
Definition hex_digit_value (c : ascii) : option Z :=
  let n := Z.of_nat (nat_of_ascii c) in
  if (48 <=? n) && (n <=? 57) then Some (n - 48)
  else if (97 <=? n) && (n <=? 102) then Some (n - 87)
  else if (65 <=? n) && (n <=? 70) then Some (n - 55)
  else None.

(** The value of a string of hexadecimal digits read after [acc]. *)
Fixpoint hex_digits (acc : Z) (s : string) : option Z :=
  match s with
  | EmptyString => Some acc
  | String c s' =>
      match hex_digit_value c with
      | Some d => hex_digits (16 * acc + d) s'
      | None => None
      end
  end.

(** [int(s, 16)] on the strings it is given here, slices of at most two
    characters of a word without whitespace: one or two hexadecimal
    digits, or a sign and a digit; anything else raises [ValueError]. *)
Definition int_16 (s : string) : res Z :=
  let unsigned (t : string) : option Z :=
    match t with
    | EmptyString => None
    | _ => hex_digits 0 t
    end in
  let signed : option Z :=
    match s with
    | String c t =>
        if Ascii.eqb c "+" then unsigned t
        else if Ascii.eqb c "-" then Z.opp <$> unsigned t
        else unsigned s
    | EmptyString => None
    end in
  match signed with
  | Some v => Ok v
  | None => Err ValueError
  end.

(** The two global lists. *)
Record globals := {
  local_network_start : list Z;
  local_network_end : list Z
}.

(** The first loop of [get_network_info], over the indices
    [range(8, 1, -2)], with the two local arrays it appends to. *)
Fixpoint octets_of (local_network_ip subnet_mask : string) (indices : list nat)
  (local_network_array subnet_mask_array : list Z) : res (list Z * list Z) :=
  match indices with
  | [] => Ok (local_network_array, subnet_mask_array)
  | i :: indices =>
      octet ← int_16 (substring (i - 2)%nat 2 local_network_ip);
      let local_network_array := (local_network_array ++ [octet])%list in
      octet ← int_16 (substring (i - 2)%nat 2 subnet_mask);
      let subnet_mask_array := (subnet_mask_array ++ [octet])%list in
      octets_of local_network_ip subnet_mask indices local_network_array subnet_mask_array
  end.

(** The second loop, over the indices [range(4)]. *)
Fixpoint append_range (local_network_array subnet_mask_array : list Z)
  (indices : list nat) (g : globals) : res unit * globals :=
  match indices with
  | [] => (Ok tt, g)
  | i :: indices =>
      match item local_network_array i, item subnet_mask_array i with
      | Ok n, Ok m =>
          let g := {| local_network_start := (local_network_start g ++ [Z.land n m])%list;
                      local_network_end := local_network_end g |} in
          let g := {| local_network_start := local_network_start g;
                      local_network_end :=
                        (local_network_end g ++ [Z.lor n (Z.land (Z.lnot m) 0xFF)])%list |} in
          append_range local_network_array subnet_mask_array indices g
      | Err e, _ | _, Err e => (Err e, g)
      end
  end.

(** [get_network_info()], on the lines of [/proc/net/route] as
    [readlines] returns them ([None] when the file cannot be read): the
    part up to the end of the first loop, which fills the two local
    arrays, and the whole. *)
Definition route_arrays (route : option (list string)) : res (list Z * list Z) :=
  lines ← match route with Some lines => Ok lines | None => Err IOError end;
  line ← item lines 1;
  let words := split_ws line in
  local_network_ip ← item words 1;
  subnet_mask ← item words 7;
  octets_of local_network_ip subnet_mask [8; 6; 4; 2]%nat [] [].

Definition get_network_info (route : option (list string)) (g : globals)
  : res unit * globals :=
  match route_arrays route with
  | Ok (local_network_array, subnet_mask_array) =>
      append_range local_network_array subnet_mask_array [0; 1; 2; 3]%nat g
  | Err e => (Err e, g)
  end.

(** The loop of [check_within_local_network], over the indices still to
    visit; [or] does not read the end of the range when the octet is
    below its start. *)
Fixpoint check_from (dest : list Z) (g : globals) (indices : list nat) : res bool :=
  match indices with
  | [] => Ok true
  | i :: indices =>
      d ← item dest i;
      lo ← item (local_network_start g) i;
      if d <? lo then Ok false
      else
        d ← item dest i;
        hi ← item (local_network_end g) i;
        if d >? hi then Ok false else check_from dest g indices
  end.

Definition check_within_local_network (dest : list Z) (g : globals) : res bool :=
  check_from dest g [0; 1; 2; 3]%nat.

(** The module as loaded: both lists empty. *)
Definition loaded : globals := {| local_network_start := []; local_network_end := [] |}.

(** Vocabulary: byte [k] of a number, its four low bytes from the least
    significant one, and the octets of a mask whose one bits are
    contiguous from the top. *)
Definition byte (k : Z) (x : Z) : Z := Z.land (Z.shiftr x (8 * k)) 0xFF.

Definition bytes (x : Z) : list Z := [byte 0 x; byte 1 x; byte 2 x; byte 3 x].

Definition prefix_octet (m : Z) : Prop := ∃ k, 0 <= k <= 8 ∧ m = 256 - 2 ^ k.

Definition is_octet (x : Z) : Prop := 0 <= x < 256.

End LocalNetwork.

(** ** A switch over its life *)

(** [JobAwareSwitch(connection)]: the table starts empty. *)
Definition __init__ (connection_dpid : Z) (connection_sent : list ofp_message)
  : JobAwareSwitch :=
  {| connection_dpid := connection_dpid; connection_sent := connection_sent;
     macToPort := ∅ |}.

(** The switch object after the handler was called on each event in turn,
    whether a call returned or raised. *)
Definition handle_events (ext : Externals) (events : list PacketIn) (self : JobAwareSwitch)
  : JobAwareSwitch :=
  foldl (fun self event => (_handle_PacketIn ext event self).2) self events.

(** The arrival port of the last of [events] that came from [mac]. *)
Definition last_port_of (mac : EthAddr) (events : list PacketIn) : option Z :=
  port <$> last (filter (fun event => src (parsed event) = mac) events).

(** The text after the first line feed of [s] (empty if there is none),
    and [s] without its line feeds. *)
Fixpoint after_first_line (s : string) : string :=
  match s with
  | EmptyString => EmptyString
  | String c s' => if Ascii.eqb c LF then s' else after_first_line s'
  end.

Fixpoint without_LF (s : string) : string :=
  match s with
  | EmptyString => EmptyString
  | String c s' => if Ascii.eqb c LF then without_LF s' else String c (without_LF s')
  end.

(** The fields of the messages: the buffer a command refers to, and the
    ports its actions output to. *)
Definition buffer_of (msg : ofp_message) : option Z :=
  match msg with
  | FlowMod m => buffer_id m
  | PacketOut m => po_buffer_id m
  end.

Definition outputs_of (msg : ofp_message) : list Z :=
  match msg with
  | FlowMod m => (fun a => match a with ofp_action_output p => p end) <$> actions m
  | PacketOut m => (fun a => match a with ofp_action_output p => p end) <$> po_actions m
  end.

(** [ext] with another configuration, and [ext] with another socket. *)
Definition with_config (config : gmap string string) (ext : Externals) : Externals :=
  {| htcondor_param := config;
     sock_exchange := sock_exchange ext;
     classad_ClassAd := classad_ClassAd ext;
     ofp_match_from_packet := ofp_match_from_packet ext |}.

Definition with_exchange (exchange : string -> string -> string -> option string)
  (ext : Externals) : Externals :=
  {| htcondor_param := htcondor_param ext;
     sock_exchange := exchange;
     classad_ClassAd := classad_ClassAd ext;
     ofp_match_from_packet := ofp_match_from_packet ext |}.

(** [recv(1024)] returns at most 1024 bytes. *)
Definition recv_bounded (ext : Externals) : Prop :=
  forall host port_text request data,
    sock_exchange ext host port_text request = Some data ->
    (String.length data <= 1024)%nat.

Fixpoint all_space (s : string) : bool :=
  match s with
  | EmptyString => true
  | String c s' => Py.isspace c && all_space s'
  end.

(** Two results of one socket conversation that differ in nothing but
    whitespace at the two ends of the received text. *)
Definition whitespace_apart (received received' : option string) : Prop :=
  match received, received' with
  | Some data, Some data' =>
      exists before after,
        all_space before = true /\ all_space after = true
        /\ data' = before ++ data ++ after
  | None, None => True
  | _, _ => False
  end.

(** Membership in a configuration list as the specification reads the
    configuration: a list that is not configured is the empty set. *)
Definition listed (ext : Externals) (key : string) (x : string) : Prop :=
  exists v, htcondor_param ext !! key = Some v /\ x ∈ Py.split COMMA v.

(** The edge-tier decision in the words of the specification (section
    4.3), over the three sets of the configuration, the answers of the
    oracle for the source and for the destination, and the text of the
    destination address:
    2. source not found: fall through;
    3. owner in BlockedUsers: Drop, scope srcOnly;
    4. else, owner in BlockedUsersOutside: destination found with
       another owner: Drop, scope srcAndDst; found with the same owner:
       fall through; not found: Drop, scope srcAndDst, unless the
       destination address is in WhitelistIPs;
    5. else: destination found with another owner: Drop, scope
       srcAndDst; found with the same owner or not found: fall through;
    and falling through is Allow. *)
Definition spec_rule_list (BlockedUsers BlockedUsersOutside WhitelistIPs : gset string)
  (source destination : OracleResponse) (destination_ip : string) : PolicyDecision :=
  match source with
  | NotFound => Allow
  | Found owner =>
      if bool_decide (owner ∈ BlockedUsers) then Drop srcOnly
      else if bool_decide (owner ∈ BlockedUsersOutside) then
        match destination with
        | Found owner_dst =>
            if bool_decide (owner_dst = owner) then Allow else Drop srcAndDst
        | NotFound =>
            if bool_decide (destination_ip ∈ WhitelistIPs) then Allow
            else Drop srcAndDst
        end
      else
        match destination with
        | Found owner_dst =>
            if bool_decide (owner_dst = owner) then Allow else Drop srcAndDst
        | NotFound => Allow
        end
  end.

(** ** More of the testbed: a routing table, a frame that is not IPv4,
    and an installation whose oracle cannot be reached. *)
Module Fixtures.

Definition TAB : string := String (ascii_of_nat 9) EmptyString.

Definition line (words : list string) : string :=
  Py.join TAB words ++ String LF EmptyString.

Definition proc_net_route : list string :=
  [ line ["Iface"; "Destination"; "Gateway"; "Flags"; "RefCnt"; "Use"; "Metric";
          "Mask"; "MTU"; "Window"; "IRTT"];
    line ["eth0"; "0000A8C0"; "00000000"; "0001"; "0"; "0"; "0"; "00FFFFFF";
          "0"; "0"; "0"] ].

Definition arp_frame : PacketIn :=
  {| parsed := {| src := 1; dst := 2; next := raw_payload 0x0806 |};
     port := 1; ofp_buffer_id := Some 78 |}.

Definition arp_reply : PacketIn :=
  {| parsed := {| src := 2; dst := 1; next := raw_payload 0x0806 |};
     port := 3; ofp_buffer_id := Some 79 |}.

Definition unreachable : Externals :=
  {| htcondor_param := Testbed.config;
     sock_exchange := fun _ _ _ => None;
     classad_ClassAd := Testbed.ClassAd;
     ofp_match_from_packet := Testbed.from_packet |}.

(** A configuration that names the oracle and no list. *)
Definition oracle_only : gmap string string :=
  {[ "HTCONDOR_MODULE_HOST" := "localhost"; "HTCONDOR_MODULE_PORT" := "9999" ]}.

(** The configuration of the testbed without WHITE_LIST_IP, and
    without BLOCKED_USERS_OUTSIDE. *)
Definition without_WHITE_LIST_IP : gmap string string :=
  {[ "HTCONDOR_MODULE_HOST" := "localhost"; "HTCONDOR_MODULE_PORT" := "9999";
     "BLOCKED_USERS" := "bob,carol"; "BLOCKED_USERS_OUTSIDE" := "dave" ]}.

Definition without_BLOCKED_USERS_OUTSIDE : gmap string string :=
  {[ "HTCONDOR_MODULE_HOST" := "localhost"; "HTCONDOR_MODULE_PORT" := "9999";
     "BLOCKED_USERS" := "bob,carol"; "WHITE_LIST_IP" := "203.0.113.4" ]}.

(** The directory of the testbed with every answer between a blank and
    a carriage return with line feed. *)
Definition in_whitespace (data : string) : string :=
  " " ++ data ++ String (ascii_of_nat 13) (String LF EmptyString).

Definition directory_in_whitespace : gmap string string :=
  in_whitespace <$> Testbed.directory.

(** The range that [proc_net_route] gives. *)
Definition range : LocalNetwork.globals :=
  {| LocalNetwork.local_network_start := [192; 168; 0; 0];
     LocalNetwork.local_network_end := [192; 168; 0; 255] |}.

End Fixtures.

(** * Properties *)

(** ** Strings and containers *)

Lemma split_not_empty sep s : Py.split sep s ≠ [].
Proof.
  induction s as [|c s IH]; simpl; [done|].
  destruct (Ascii.eqb c sep); [done|]. by destruct (Py.split sep s).
Qed.

Lemma index_split_0 sep s : ∃ line0, index (Py.split sep s) 0 = Returned line0.
Proof.
  unfold index. destruct (Py.split sep s) as [|line0 rest] eqn:E.
  - by apply split_not_empty in E.
  - by exists line0.
Qed.

Lemma contains_elem_of x l : Py.contains x l = true ↔ x ∈ l.
Proof.
  unfold Py.contains. rewrite existsb_exists. split.
  - intros (y & Hy & Heq). apply String.eqb_eq in Heq. subst. by apply list_elem_of_In.
  - intros Hx. exists x. split; [by apply list_elem_of_In | apply String.eqb_refl].
Qed.

Lemma contains_not_elem_of x l : Py.contains x l = false ↔ x ∉ l.
Proof. rewrite <- contains_elem_of. by destruct (Py.contains x l). Qed.

(** ** Frames *)

Lemma find_ipv4_not_lldp packet ip :
  find_ipv4 packet = Some ip → (type packet =? LLDP_TYPE) = false.
Proof. unfold find_ipv4, type. by destruct (next packet). Qed.

Lemma lldp_no_ipv4 packet : type packet = LLDP_TYPE → find_ipv4 packet = None.
Proof. unfold find_ipv4, type. by destruct (next packet). Qed.

(** ** The handler as a computation of its decision *)

Ltac run_monad :=
  cbv beta iota delta [mbind M_bind outcome_bind mret M_ret outcome_ret lift
                       macToPort_set macToPort_get dpid send fst snd negb].

Ltac case_scrutinee :=
  match goal with
  | |- context [match ?x with _ => _ end] =>
      lazymatch x with
      | context [match _ with _ => _ end] => fail
      | _ => destruct x eqn:?
      end
  end.

Lemma l2_learning_eq ext event packet self :
  l2_learning ext event packet self
  = (Returned tt,
     sent_more [match macToPort self !! dst packet with
                | None => flood_packet_out event
                | Some out =>
                    if out =? port event then loop_drop_rule ext event packet
                    else directed_rule event packet out
                end] self).
Proof.
  unfold l2_learning. run_monad.
  destruct (macToPort self !! dst packet) as [out|]; [|done].
  by destruct (out =? port event).
Qed.

(** On an edge switch, a frame with an IPv4 header gets the command of
    the decision that [spec_edge_policy] computes. *)
Lemma edge_handler_refines ext event self ip :
  is_core_switch self = false →
  find_ipv4 (parsed event) = Some ip →
  _handle_PacketIn ext event self
  = emit ext event ip (spec_edge_policy ext ip) (learned event self).
Proof.
  intros Hedge Hip.
  unfold _handle_PacketIn, spec_edge_policy, resolve, config_list, emit, get_ip_addr, param.
  unfold is_core_switch in Hedge.
  rewrite (find_ipv4_not_lldp _ _ Hip). run_monad. cbn [connection_dpid].
  rewrite Hedge, Hip. run_monad.
  fold (learned event self).
  repeat (case_scrutinee; run_monad); try reflexivity.
  all: congruence.
Qed.

Lemma core_handler_refines ext event self ip :
  is_core_switch self = true →
  find_ipv4 (parsed event) = Some ip →
  _handle_PacketIn ext event self
  = match spec_core_policy ext (parsed event) ip with
    | Returned true => (Returned tt, sent_more [FlowMod (core_drop_rule event ip)] (learned event self))
    | Returned false => l2_learning ext event (parsed event) (learned event self)
    | Raised e => (Raised e, learned event self)
    end.
Proof.
  intros Hcore Hip.
  unfold _handle_PacketIn, handle_packet_for_core_switch, spec_core_policy, resolve,
    get_ip_addr.
  unfold is_core_switch in Hcore.
  rewrite (find_ipv4_not_lldp _ _ Hip). run_monad. cbn [connection_dpid].
  rewrite Hcore, Hip. run_monad.
  fold (learned event self).
  repeat (case_scrutinee; run_monad); try reflexivity.
  all: congruence.
Qed.

(** A frame without an IPv4 header is left to the L2 decision, after the
    acknowledgment if it is an LLDP frame. *)
Lemma handler_without_ipv4 ext event self :
  find_ipv4 (parsed event) = None →
  _handle_PacketIn ext event self
  = l2_learning ext event (parsed event)
      (if type (parsed event) =? LLDP_TYPE
       then sent_more [lldp_ack event] (learned event self)
       else learned event self).
Proof.
  intros Hip.
  unfold _handle_PacketIn, handle_packet_for_core_switch, get_ip_addr. rewrite Hip.
  run_monad. fold (learned event self).
  destruct (type (parsed event) =? LLDP_TYPE); run_monad; cbn [connection_dpid];
    by case_scrutinee.
Qed.

(** ** What was sent *)

Lemma sent_more_inj a b self : sent_more [a] self = sent_more [b] self → a = b.
Proof.
  intros H. apply (f_equal connection_sent) in H. cbn in H.
  apply app_inv_head in H. by injection H.
Qed.

Lemma run_sent_inj {A} (r r' : outcome A) a b self :
  (r, sent_more [a] self) = (r', sent_more [b] self) → a = b.
Proof. intros H. apply (f_equal snd) in H. by apply sent_more_inj in H. Qed.

Lemma learned_idem event self : learned event (learned event self) = learned event self.
Proof. unfold learned. cbn. by rewrite insert_insert_eq. Qed.

Lemma is_core_switch_learned event self :
  is_core_switch (learned event self) = is_core_switch self.
Proof. done. Qed.

Lemma learned_sent_more event msgs self :
  learned event (sent_more msgs self) = sent_more msgs (learned event self).
Proof. done. Qed.

(** The command of the L2 decision is never a rule of priority 12. *)
Lemma l2_learning_not_priority_12 ext event packet self msg rest :
  l2_learning ext event packet self = (Returned tt, sent_more [FlowMod msg] rest) →
  connection_sent rest = connection_sent self →
  priority msg ≠ 12.
Proof.
  rewrite l2_learning_eq. intros H Hsent.
  apply (f_equal (λ p, connection_sent p.2)) in H. cbn in H. rewrite Hsent in H.
  apply app_inv_head in H. injection H as H. revert H.
  destruct (macToPort self !! dst packet) as [out|]; [|done].
  destruct (out =? port event); intros H; injection H as <-; done.
Qed.

(** ** The shape of every outcome *)

Lemma emit_shape ext event ip decision self :
  ∃ r msgs, emit ext event ip decision self = (r, sent_more msgs self).
Proof.
  destruct decision as [[|scope]|e]; cbn [emit].
  - rewrite l2_learning_eq. eauto.
  - exists (Returned tt), [FlowMod (suppression_rule scope event ip)]. done.
  - exists (Raised e), []. unfold lift, sent_more. by rewrite app_nil_r; destruct self.
Qed.

Lemma handler_shape ext event self :
  ∃ r msgs, _handle_PacketIn ext event self = (r, sent_more msgs (learned event self)).
Proof.
  destruct (find_ipv4 (parsed event)) as [ip|] eqn:Hip.
  - destruct (is_core_switch self) eqn:Hrole.
    + rewrite (core_handler_refines _ _ _ _ Hrole Hip).
      destruct (spec_core_policy ext (parsed event) ip) as [[|]|e].
      * eauto.
      * rewrite l2_learning_eq. eauto.
      * exists (Raised e), []. unfold sent_more. rewrite app_nil_r. by destruct self.
    + rewrite (edge_handler_refines _ _ _ _ Hrole Hip). apply emit_shape.
  - rewrite (handler_without_ipv4 _ _ _ Hip), l2_learning_eq.
    destruct (type (parsed event) =? LLDP_TYPE); [|eauto].
    eexists _, [lldp_ack event; _]. unfold sent_more; cbn. by rewrite <- app_assoc.
Qed.

(** ** The edge-tier policy *)

(** [spec_edge_policy] past its first tests: the source resolved to
    an owner that is not in [BLOCKED_USERS]. *)
Lemma spec_edge_policy_not_blocked ext ip owner BlockedUsers :
  resolve ext (srcip ip) = Returned (Found owner) →
  config_list ext "BLOCKED_USERS" = Returned BlockedUsers →
  owner ∉ BlockedUsers →
  spec_edge_policy ext ip
  = (BlockedUsersOutside ← config_list ext "BLOCKED_USERS_OUTSIDE";
     destination ← resolve ext (dstip ip);
     if Py.contains owner BlockedUsersOutside then
       match destination with
       | Found owner_dst =>
           if String.eqb owner owner_dst then mret Allow else mret (Drop srcAndDst)
       | NotFound =>
           WhitelistIPs ← config_list ext "WHITE_LIST_IP";
           if Py.contains (IPAddr_str (dstip ip)) WhitelistIPs then mret Allow
           else mret (Drop srcAndDst)
       end
     else
       match destination with
       | Found owner_dst =>
           if String.eqb owner owner_dst then mret Allow else mret (Drop srcAndDst)
       | NotFound => mret Allow
       end).
Proof.
  intros Hsrc Hbu Hout. unfold spec_edge_policy. rewrite Hsrc. run_monad.
  rewrite Hbu. apply contains_not_elem_of in Hout. by rewrite Hout.
Qed.

Lemma decides_of_policy ext event self ip decision :
  is_core_switch self = false →
  find_ipv4 (parsed event) = Some ip →
  spec_edge_policy ext ip = Returned decision →
  decides ext event self decision.
Proof.
  intros Hrole Hip Hpol. unfold decides.
  rewrite (edge_handler_refines _ _ _ _ Hrole Hip), Hpol.
  destruct decision as [|scope]; [done|]. by exists ip.
Qed.

(** C6: on an edge switch, a frame whose source address resolves to an
    owner listed in BLOCKED_USERS gets exactly one command, a flow-mod of
    priority 12, matching the source address and the source MAC and
    nothing of the destination, with idle timeout 5, hard timeout 10 and
    an empty action list. *)
Theorem blocked_user_suppression_rule ext event self ip owner BlockedUsers :
  is_core_switch self = false →
  find_ipv4 (parsed event) = Some ip →
  resolve ext (srcip ip) = Returned (Found owner) →
  config_list ext "BLOCKED_USERS" = Returned BlockedUsers →
  owner ∈ BlockedUsers →
  ∃ msg,
    _handle_PacketIn ext event self
    = (Returned tt, sent_more [FlowMod msg] (learned event self))
    ∧ priority msg = 12
    ∧ match_ msg = {| dl_src := Some (src (parsed event)); dl_dst := None;
                      dl_type := None; nw_src := Some (srcip ip); nw_dst := None;
                      tp_dst := None; attrs := ∅ |}
    ∧ idle_timeout msg = 5 ∧ hard_timeout msg = 10
    ∧ actions msg = [].
Proof.
  intros Hrole Hip Hsrc Hbu Hin.
  exists (suppression_rule srcOnly event ip). split; [|done].
  rewrite (edge_handler_refines _ _ _ _ Hrole Hip).
  unfold spec_edge_policy. rewrite Hsrc. run_monad. rewrite Hbu.
  apply contains_elem_of in Hin. by rewrite Hin.
Qed.

(** C2, amended: on an edge switch, every frame whose source address
    resolves to an owner listed in BLOCKED_USERS is dropped with a rule on
    the source alone, whatever its destination MAC and address, whatever
    the oracle would answer for the destination and whatever the other
    configuration lists hold. *)
Theorem edge_blocked_user_dropped ext self source owner BlockedUsers :
  is_core_switch self = false →
  resolve ext source = Returned (Found owner) →
  config_list ext "BLOCKED_USERS" = Returned BlockedUsers →
  owner ∈ BlockedUsers →
  ∀ event ip,
    find_ipv4 (parsed event) = Some ip → srcip ip = source →
    decides ext event self (Drop srcOnly).
Proof.
  intros Hrole Hsrc Hbu Hin event ip Hip <-.
  apply (decides_of_policy _ _ _ ip); [done..|].
  unfold spec_edge_policy. rewrite Hsrc. run_monad. rewrite Hbu.
  apply contains_elem_of in Hin. by rewrite Hin.
Qed.

(** C4, amended: on an edge switch on which BLOCKED_USERS,
    BLOCKED_USERS_OUTSIDE and WHITE_LIST_IP are configured, for a source
    owner listed in BLOCKED_USERS_OUTSIDE and not in BLOCKED_USERS and a
    destination address the oracle does not know: the frame is dropped
    with a rule on source address, source MAC and destination address
    unless the destination address is listed in WHITE_LIST_IP, and it is
    left to the L2 decision if it is listed. *)
Theorem blocked_outside_unknown_destination
  ext event self ip owner BlockedUsers BlockedUsersOutside WhitelistIPs :
  is_core_switch self = false →
  find_ipv4 (parsed event) = Some ip →
  resolve ext (srcip ip) = Returned (Found owner) →
  config_list ext "BLOCKED_USERS" = Returned BlockedUsers →
  owner ∉ BlockedUsers →
  config_list ext "BLOCKED_USERS_OUTSIDE" = Returned BlockedUsersOutside →
  owner ∈ BlockedUsersOutside →
  resolve ext (dstip ip) = Returned NotFound →
  config_list ext "WHITE_LIST_IP" = Returned WhitelistIPs →
  (IPAddr_str (dstip ip) ∉ WhitelistIPs →
     decides ext event self (Drop srcAndDst)
     ∧ match_ (suppression_rule srcAndDst event ip)
       = {| dl_src := Some (src (parsed event)); dl_dst := None; dl_type := None;
            nw_src := Some (srcip ip); nw_dst := Some (dstip ip);
            tp_dst := None; attrs := ∅ |})
  ∧ (IPAddr_str (dstip ip) ∈ WhitelistIPs → decides ext event self Allow).
Proof.
  intros Hrole Hip Hsrc Hbu Hnot Hbo Hin Hdst Hwl.
  pose proof (spec_edge_policy_not_blocked _ _ _ _ Hsrc Hbu Hnot) as Hpol.
  rewrite Hbo, Hdst in Hpol. revert Hpol. run_monad.
  apply contains_elem_of in Hin. rewrite Hin, Hwl. intros Hpol.
  split; intros Hlisted.
  - split; [|done]. apply (decides_of_policy _ _ _ ip); [done..|].
    apply contains_not_elem_of in Hlisted. by rewrite Hpol, Hlisted.
  - apply (decides_of_policy _ _ _ ip); [done..|].
    apply contains_elem_of in Hlisted. by rewrite Hpol, Hlisted.
Qed.

(** C5, amended: on an edge switch on which BLOCKED_USERS and
    BLOCKED_USERS_OUTSIDE are configured, for a source owner listed in
    neither, the frame is dropped if and only if the destination address
    resolves to an owner other than the source's; it is then dropped
    with a rule on source and destination, and when the destination
    resolves to the same owner or is not known to the oracle the frame
    is left to the L2 decision. *)
Theorem unrestricted_owner_drop_iff_other_owner
  ext event self ip owner BlockedUsers BlockedUsersOutside :
  is_core_switch self = false →
  find_ipv4 (parsed event) = Some ip →
  resolve ext (srcip ip) = Returned (Found owner) →
  config_list ext "BLOCKED_USERS" = Returned BlockedUsers →
  owner ∉ BlockedUsers →
  config_list ext "BLOCKED_USERS_OUTSIDE" = Returned BlockedUsersOutside →
  owner ∉ BlockedUsersOutside →
  ((∃ msg, policy_drop ext event self msg)
   ↔ ∃ owner_dst, resolve ext (dstip ip) = Returned (Found owner_dst) ∧ owner_dst ≠ owner)
  ∧ (∀ owner_dst,
       resolve ext (dstip ip) = Returned (Found owner_dst) → owner_dst ≠ owner →
       decides ext event self (Drop srcAndDst))
  ∧ (resolve ext (dstip ip) = Returned (Found owner)
     ∨ resolve ext (dstip ip) = Returned NotFound →
     decides ext event self Allow).
Proof.
  intros Hrole Hip Hsrc Hbu Hnot Hbo Hnot'.
  pose proof (spec_edge_policy_not_blocked _ _ _ _ Hsrc Hbu Hnot) as Hpol.
  rewrite Hbo in Hpol. revert Hpol. run_monad.
  apply contains_not_elem_of in Hnot'. rewrite Hnot'. intros Hpol.
  assert (Hother : ∀ owner_dst,
    resolve ext (dstip ip) = Returned (Found owner_dst) → owner_dst ≠ owner →
    decides ext event self (Drop srcAndDst)).
  { intros owner_dst Hdst Hne. apply (decides_of_policy _ _ _ ip); [done..|].
    rewrite Hpol, Hdst. destruct (String.eqb_spec owner owner_dst); by subst. }
  assert (Hallow : resolve ext (dstip ip) = Returned (Found owner)
     ∨ resolve ext (dstip ip) = Returned NotFound → decides ext event self Allow).
  { intros [Hdst|Hdst]; apply (decides_of_policy _ _ _ ip); try done;
      rewrite Hpol, Hdst; [by rewrite String.eqb_refl | done]. }
  split; [|done]. split.
  - intros (msg & Hrun & Hprio & _).
    destruct (resolve ext (dstip ip)) as [[owner_dst|]|e] eqn:Hdst.
    + destruct (String.eqb_spec owner owner_dst) as [->|Hne]; [|by eauto].
      specialize (Hallow (or_introl eq_refl)). unfold decides in Hallow.
      rewrite Hallow in Hrun. by apply l2_learning_not_priority_12 in Hrun.
    + specialize (Hallow (or_intror eq_refl)). unfold decides in Hallow.
      rewrite Hallow in Hrun. by apply l2_learning_not_priority_12 in Hrun.
    + rewrite (edge_handler_refines _ _ _ _ Hrole Hip), Hpol in Hrun. done.
  - intros (owner_dst & Hdst & Hne). destruct (Hother _ Hdst Hne) as (ip' & Hip' & Hrun).
    by exists (suppression_rule srcAndDst event ip').
Qed.

(** ** L2 learning and forwarding *)

(** C7: the L2 forwarding decision sends exactly one command, chosen by
    the table entry of the destination MAC: the flood packet-out if and
    only if there is none; the loop Drop, an exact-match flow-mod built
    from the frame, without action, if and only if the entry is the
    arrival port; and otherwise the flow-mod of priority 10 matching
    (dl_src, dl_dst) with the output action to the learned port. *)
Theorem l2_forwarding_decision ext event packet self :
  l2_learning ext event packet self
  = (Returned tt,
     sent_more [match macToPort self !! dst packet with
                | None => flood_packet_out event
                | Some out =>
                    if out =? port event then loop_drop_rule ext event packet
                    else directed_rule event packet out
                end] self)
  ∧ (l2_learning ext event packet self
     = (Returned tt, sent_more [flood_packet_out event] self)
     ↔ macToPort self !! dst packet = None)
  ∧ (l2_learning ext event packet self
     = (Returned tt, sent_more [loop_drop_rule ext event packet] self)
     ↔ macToPort self !! dst packet = Some (port event))
  ∧ (∀ out,
       l2_learning ext event packet self
       = (Returned tt, sent_more [directed_rule event packet out] self)
       ↔ macToPort self !! dst packet = Some out ∧ out ≠ port event).
Proof.
  rewrite l2_learning_eq. split; [done|].
  destruct (macToPort self !! dst packet) as [learned_port|] eqn:Hdst.
  - destruct (Z.eqb_spec learned_port (port event)) as [->|Hne].
    + split; [|split].
      * split; [by intros H%run_sent_inj | done].
      * by split.
      * intros out. split; [by intros H%run_sent_inj | by intros [[= <-] ?]].
    + split; [|split].
      * split; [by intros H%run_sent_inj | done].
      * split; [by intros H%run_sent_inj | by intros [= ->]].
      * intros out. split.
        -- intros H%run_sent_inj. unfold directed_rule in H. by simplify_eq.
        -- by intros [[= ->] _].
  - split; [|split].
    + by split.
    + split; [by intros H%run_sent_inj | done].
    + intros out. split; [by intros H%run_sent_inj | by intros [? _]].
Qed.

(** C8: whatever the frame, the switch role and the outcome (a command,
    several, or an exception), the switch object that the handler leaves
    has the source MAC of the frame mapped to the arrival port and is
    otherwise the table it found; and the handler runs as it would on a
    table that had this entry from the start, so that no decision is
    taken before the entry is there. *)
Theorem mac_learning_never_skipped ext event self :
  (∃ r msgs, _handle_PacketIn ext event self = (r, sent_more msgs (learned event self)))
  ∧ macToPort (_handle_PacketIn ext event self).2
    = <[src (parsed event) := port event]> (macToPort self)
  ∧ (_handle_PacketIn ext event self).2.(macToPort) !! src (parsed event)
    = Some (port event)
  ∧ _handle_PacketIn ext event (learned event self) = _handle_PacketIn ext event self.
Proof.
  destruct (handler_shape ext event self) as (r & msgs & Hrun).
  split; [by eauto|]. rewrite Hrun. cbn. split; [done|]. split.
  - apply lookup_insert_eq.
  - rewrite <- Hrun. clear.
    destruct (find_ipv4 (parsed event)) as [ip|] eqn:Hip.
    + destruct (is_core_switch self) eqn:Hrole.
      * rewrite !(core_handler_refines _ _ _ ip), learned_idem; done.
      * rewrite !(edge_handler_refines _ _ _ ip), learned_idem; done.
    + by rewrite !handler_without_ipv4, learned_idem.
Qed.

(** ** Answers of the oracle *)

Lemma strip_NOFOUND : Py.strip "NOFOUND" = "NOFOUND".
Proof. reflexivity. Qed.

Lemma request_answering_NOFOUND ext ip :
  request_network_classad (answering_NOFOUND ext) ip
  = match request_network_classad ext ip with
    | Returned received => Returned (if is_FOUND received then received else "NOFOUND")
    | Raised e => Raised e
    end.
Proof.
  unfold request_network_classad, param, answering_NOFOUND. cbn [htcondor_param sock_exchange].
  run_monad.
  destruct (getitem (htcondor_param ext) "HTCONDOR_MODULE_HOST") as [HOST|]; [|done].
  destruct (getitem (htcondor_param ext) "HTCONDOR_MODULE_PORT") as [PORT|]; [|done].
  destruct (sock_exchange ext HOST PORT _) as [data|]; [|done].
  by destruct (is_FOUND (Py.strip data)).
Qed.

Lemma resolve_not_FOUND ext ip received :
  request_network_classad ext ip = Returned received →
  is_FOUND received = false →
  resolve ext ip = Returned NotFound.
Proof.
  unfold resolve, is_FOUND, index. intros -> Hline. run_monad.
  destruct (Py.split LF received !! 0%nat) as [line0|] eqn:Hsplit.
  - by rewrite Hline.
  - exfalso. apply (split_not_empty LF received). by destruct (Py.split LF received).
Qed.

Lemma resolve_answering_NOFOUND ext ip :
  resolve (answering_NOFOUND ext) ip = resolve ext ip.
Proof.
  destruct (request_network_classad ext ip) as [received|e] eqn:Hreq.
  - destruct (is_FOUND received) eqn:Hline.
    + unfold resolve. by rewrite request_answering_NOFOUND, Hreq, Hline.
    + rewrite (resolve_not_FOUND ext ip received); [|done..].
      apply (resolve_not_FOUND _ _ "NOFOUND"); [|done].
      by rewrite request_answering_NOFOUND, Hreq, Hline.
  - unfold resolve. by rewrite request_answering_NOFOUND, Hreq.
Qed.

Lemma spec_edge_policy_answering_NOFOUND ext ip :
  spec_edge_policy (answering_NOFOUND ext) ip = spec_edge_policy ext ip.
Proof. unfold spec_edge_policy. by rewrite !resolve_answering_NOFOUND. Qed.

Lemma spec_core_policy_answering_NOFOUND ext packet ip :
  spec_core_policy (answering_NOFOUND ext) packet ip = spec_core_policy ext packet ip.
Proof. unfold spec_core_policy. by rewrite !resolve_answering_NOFOUND. Qed.

Lemma handler_answering_NOFOUND ext event self :
  _handle_PacketIn (answering_NOFOUND ext) event self = _handle_PacketIn ext event self.
Proof.
  destruct (find_ipv4 (parsed event)) as [ip|] eqn:Hip.
  - destruct (is_core_switch self) eqn:Hrole.
    + rewrite !(core_handler_refines _ _ _ ip), spec_core_policy_answering_NOFOUND; done.
    + rewrite !(edge_handler_refines _ _ _ ip), spec_edge_policy_answering_NOFOUND; done.
  - by rewrite !handler_without_ipv4.
Qed.

(** A source address that the oracle does not resolve: the frame is left
    to the L2 decision, on an edge switch and on the core switch. *)
Lemma unresolved_source_allowed ext event self ip :
  find_ipv4 (parsed event) = Some ip →
  resolve ext (srcip ip) = Returned NotFound →
  decides ext event self Allow.
Proof.
  intros Hip Hsrc. unfold decides.
  destruct (is_core_switch self) eqn:Hrole.
  - rewrite (core_handler_refines _ _ _ ip); [|done..].
    unfold spec_core_policy. by rewrite Hsrc.
  - rewrite (edge_handler_refines _ _ _ ip); [|done..].
    unfold spec_edge_policy. by rewrite Hsrc.
Qed.

(** C9: an answer of the oracle whose first line is not FOUND, whatever
    else it is, is read as NOFOUND is read: resolving the address gives
    NotFound and raises nothing; as the answer for a source address it
    leaves the frame to the L2 decision, installing no Drop; and the
    handler runs, on every event, as it runs when the oracle answers
    NOFOUND in place of every such answer, be it for the source or for
    the destination. *)
Theorem non_FOUND_answer_read_as_NOFOUND ext ip received :
  request_network_classad ext ip = Returned received →
  Py.split LF received !! 0%nat ≠ Some "FOUND" →
  resolve ext ip = Returned NotFound
  ∧ (∀ event self header,
       find_ipv4 (parsed event) = Some header → srcip header = ip →
       decides ext event self Allow)
  ∧ (∀ event self,
       _handle_PacketIn (answering_NOFOUND ext) event self
       = _handle_PacketIn ext event self).
Proof.
  intros Hreq Hline.
  assert (Hres : resolve ext ip = Returned NotFound).
  { apply (resolve_not_FOUND _ _ received); [done|]. unfold is_FOUND.
    destruct (Py.split LF received !! 0%nat) as [line0|]; [|done].
    destruct (String.eqb_spec line0 "FOUND"); [by subst|done]. }
  split; [done|]. split.
  - intros event self header Hip <-. by apply (unresolved_source_allowed _ _ _ header).
  - apply handler_answering_NOFOUND.
Qed.

(** ** Exceptions *)

Lemma resolve_missing_Owner ext ip received ad :
  request_network_classad ext ip = Returned received →
  Py.split LF received !! 0%nat = Some "FOUND" →
  str_to_classad ext (Py.split LF received) = Returned ad →
  ad !! "Owner" = None →
  resolve ext ip = Raised (KeyError "Owner").
Proof.
  unfold resolve, index, getitem. intros -> Hline Had Hno. run_monad.
  rewrite Hline. cbn. by rewrite Had, Hno.
Qed.

(** An answer FOUND whose ClassAd has no Owner: the handler raises
    KeyError, having sent nothing (the source MAC is learned). *)
Lemma missing_Owner_KeyError ext event self ip received ad :
  find_ipv4 (parsed event) = Some ip →
  request_network_classad ext (srcip ip) = Returned received →
  Py.split LF received !! 0%nat = Some "FOUND" →
  str_to_classad ext (Py.split LF received) = Returned ad →
  ad !! "Owner" = None →
  _handle_PacketIn ext event self = (Raised (KeyError "Owner"), learned event self).
Proof.
  intros Hip Hreq Hline Had Hno.
  pose proof (resolve_missing_Owner _ _ _ _ Hreq Hline Had Hno) as Hres.
  destruct (is_core_switch self) eqn:Hrole.
  - rewrite (core_handler_refines _ _ _ ip); [|done..].
    unfold spec_core_policy. by rewrite Hres.
  - rewrite (edge_handler_refines _ _ _ ip); [|done..].
    unfold spec_edge_policy. by rewrite Hres.
Qed.

(** C10: there is an event at which the oracle answers FOUND with a
    ClassAd that has no Owner, and at which the handler raises KeyError
    at the lookup of Owner, uncaught, without a command sent. *)
Theorem missing_Owner_raises :
  ∃ ext event self ip received ad,
    find_ipv4 (parsed event) = Some ip
    ∧ request_network_classad ext (srcip ip) = Returned received
    ∧ Py.split LF received !! 0%nat = Some "FOUND"
    ∧ str_to_classad ext (Py.split LF received) = Returned ad
    ∧ ad !! "Owner" = None
    ∧ _handle_PacketIn ext event self = (Raised (KeyError "Owner"), learned event self)
    ∧ connection_sent (learned event self) = connection_sent self.
Proof.
  pose (ip := Testbed.header (Testbed.ip 10 0 0 8) (Testbed.ip 10 0 0 9) None).
  exists Testbed.ext, (Testbed.frame ip), (Testbed.switch Testbed.edge ∅), ip,
    (Py.strip (Testbed.answer_FOUND "JobId" "7")), {[ "JobId" := "7" ]}.
  assert (Hreq : request_network_classad Testbed.ext (srcip ip)
                 = Returned (Py.strip (Testbed.answer_FOUND "JobId" "7")))
    by (vm_compute; reflexivity).
  assert (Hline : Py.split LF (Py.strip (Testbed.answer_FOUND "JobId" "7")) !! 0%nat
                  = Some "FOUND") by (vm_compute; reflexivity).
  assert (Had : str_to_classad Testbed.ext
                  (Py.split LF (Py.strip (Testbed.answer_FOUND "JobId" "7")))
                = Returned ({[ "JobId" := "7" ]} : gmap string string))
    by (vm_compute; reflexivity).
  assert (Hno : ({[ "JobId" := "7" ]} : gmap string string) !! "Owner" = None)
    by (vm_compute; reflexivity).
  do 5 (split; [done|]). split; [|done].
  exact (missing_Owner_KeyError Testbed.ext (Testbed.frame ip) _ ip _ _
           eq_refl Hreq Hline Had Hno).
Qed.

(** ** The core-tier rule and the LLDP acknowledgment *)

(** C1, at the core tier: the Drop rule of the core switch is sent with
    idle timeout 0 and hard timeout 0, the constructor's defaults; the
    constants 5 and 10 are attributes of its match object. *)
Theorem core_drop_rule_without_timeouts ext event self ip l4 :
  is_core_switch self = true →
  find_ipv4 (parsed event) = Some ip →
  resolve ext (srcip ip) = Returned (Found "zzhang") →
  find_tcp (parsed event) = Some l4 → dstport l4 = 80 →
  ∃ msg,
    policy_drop ext event self msg
    ∧ idle_timeout msg = 0 ∧ hard_timeout msg = 0
    ∧ attrs (match_ msg) !! "idle_timeout" = Some IDLE_TIMEOUT
    ∧ attrs (match_ msg) !! "hard_timeout" = Some HARD_TIMEOUT.
Proof.
  intros Hrole Hip Hsrc Htcp Hport. exists (core_drop_rule event ip).
  split; [|done]. split; [|done].
  rewrite (core_handler_refines _ _ _ ip); [|done..].
  unfold spec_core_policy. by rewrite Hsrc, Htcp, Hport.
Qed.

(** C3, as the code runs: after the acknowledgment of an LLDP frame the
    handler goes on to the L2 forwarding decision, so that two commands
    are sent: the no-action packet-out and then a flood packet-out or a
    flow-mod. *)
Theorem lldp_frame_also_forwarded ext event self :
  type (parsed event) = LLDP_TYPE →
  _handle_PacketIn ext event self
  = (Returned tt,
     sent_more [lldp_ack event;
                match macToPort (learned event self) !! dst (parsed event) with
                | None => flood_packet_out event
                | Some out =>
                    if out =? port event then loop_drop_rule ext event (parsed event)
                    else directed_rule event (parsed event) out
                end] (learned event self)).
Proof.
  intros Htype. rewrite (handler_without_ipv4 _ _ _ (lldp_no_ipv4 _ Htype)), Htype.
  rewrite l2_learning_eq. cbn. unfold sent_more. cbn. by rewrite <- app_assoc.
Qed.

Lemma sent_more_inv msgs msgs' self :
  sent_more msgs self = sent_more msgs' self → msgs = msgs'.
Proof. intros H. apply (f_equal connection_sent) in H. by apply app_inv_head in H. Qed.

Lemma l2_rules_carry_timeouts ext event packet self r msgs msg :
  l2_learning ext event packet self = (r, sent_more msgs self) →
  FlowMod msg ∈ msgs →
  idle_timeout msg = IDLE_TIMEOUT ∧ hard_timeout msg = HARD_TIMEOUT.
Proof.
  rewrite l2_learning_eq. intros H%(f_equal snd)%sent_more_inv. subst msgs.
  intros Hin%list_elem_of_singleton. revert Hin.
  destruct (macToPort self !! dst packet) as [out|]; [|done].
  destruct (out =? port event); by intros [= ->].
Qed.

(** Every flow-mod that an edge switch is sent, a Drop or a forwarding
    rule, carries the idle timeout 5 and the hard timeout 10; so does
    every rule of the L2 decision, the loop Drop among them, on any
    switch. *)
Lemma edge_rules_carry_timeouts ext event self r msgs msg :
  is_core_switch self = false →
  _handle_PacketIn ext event self = (r, sent_more msgs (learned event self)) →
  FlowMod msg ∈ msgs →
  idle_timeout msg = IDLE_TIMEOUT ∧ hard_timeout msg = HARD_TIMEOUT.
Proof.
  intros Hrole. destruct (find_ipv4 (parsed event)) as [ip|] eqn:Hip.
  - rewrite (edge_handler_refines _ _ _ ip); [|done..].
    destruct (spec_edge_policy ext ip) as [[|scope]|e]; cbn [emit].
    + apply l2_rules_carry_timeouts.
    + intros H%(f_equal snd)%sent_more_inv. subst msgs.
      by intros [= ->]%list_elem_of_singleton.
    + unfold lift. intros H%(f_equal snd). 
      assert (msgs = []) as ->; [|by intros ?%elem_of_nil].
      apply (f_equal connection_sent) in H. cbn in H.
      rewrite <- (app_nil_r (connection_sent self)) in H at 1.
      by apply app_inv_head in H.
  - rewrite handler_without_ipv4; [|done].
    destruct (type (parsed event) =? LLDP_TYPE).
    + rewrite l2_learning_eq. intros H%(f_equal snd).
      apply (f_equal connection_sent) in H. cbn in H. rewrite <- app_assoc in H.
      apply app_inv_head in H. subst msgs. cbn.
      intros [?|Hin%list_elem_of_singleton]%elem_of_cons; [done|]. revert Hin.
      destruct (_ !! _) as [out|]; [|done].
      destruct (out =? port event); by intros [= ->].
    + apply l2_rules_carry_timeouts.
Qed.

(** ** The handler on the testbed *)

(** C2, as stated, fails on the core switch: a frame from bob, who is
    listed in BLOCKED_USERS, to a known MAC on another port is given a
    forwarding rule. *)
Lemma blocked_user_forwarded_by_core_switch :
  is_core_switch (Testbed.switch Testbed.core {[ 2 := 3 ]}) = true
  ∧ resolve Testbed.ext (Testbed.ip 10 0 0 6) = Returned (Found "bob")
  ∧ config_list Testbed.ext "BLOCKED_USERS" = Returned ["bob"; "carol"]
  ∧ _handle_PacketIn Testbed.ext
      (Testbed.frame (Testbed.header (Testbed.ip 10 0 0 6) (Testbed.ip 10 0 0 9) None))
      (Testbed.switch Testbed.core {[ 2 := 3 ]})
    = (Returned tt,
       {| connection_dpid := Testbed.core;
          connection_sent :=
            [FlowMod {| priority := 10;
                        match_ := {| dl_src := Some 1; dl_dst := Some 2; dl_type := None;
                                     nw_src := None; nw_dst := None; tp_dst := None;
                                     attrs := ∅ |};
                        idle_timeout := 5; hard_timeout := 10;
                        actions := [ofp_action_output 3]; buffer_id := Some 77 |}];
          macToPort := <[ 1 := 1 ]> {[ 2 := 3 ]} |})
  ∧ ¬ ∃ msg,
        policy_drop Testbed.ext
          (Testbed.frame (Testbed.header (Testbed.ip 10 0 0 6) (Testbed.ip 10 0 0 9) None))
          (Testbed.switch Testbed.core {[ 2 := 3 ]}) msg.
Proof.
  assert (Hrun : _handle_PacketIn Testbed.ext
      (Testbed.frame (Testbed.header (Testbed.ip 10 0 0 6) (Testbed.ip 10 0 0 9) None))
      (Testbed.switch Testbed.core {[ 2 := 3 ]})
    = (Returned tt,
       {| connection_dpid := Testbed.core;
          connection_sent :=
            [FlowMod {| priority := 10;
                        match_ := {| dl_src := Some 1; dl_dst := Some 2; dl_type := None;
                                     nw_src := None; nw_dst := None; tp_dst := None;
                                     attrs := ∅ |};
                        idle_timeout := 5; hard_timeout := 10;
                        actions := [ofp_action_output 3]; buffer_id := Some 77 |}];
          macToPort := <[ 1 := 1 ]> {[ 2 := 3 ]} |})) by (vm_compute; reflexivity).
  split; [vm_compute; reflexivity|]. split; [vm_compute; reflexivity|].
  split; [vm_compute; reflexivity|]. split; [exact Hrun|].
  intros (msg & Hdrop & Hprio & _). rewrite Hrun in Hdrop.
  apply (f_equal (λ p, connection_sent p.2)) in Hdrop. cbn in Hdrop.
  injection Hdrop as <-. discriminate Hprio.
Qed.

(** C4, as stated, fails when WHITE_LIST_IP is not configured: dave is
    listed in BLOCKED_USERS_OUTSIDE and not in BLOCKED_USERS, the oracle
    does not know the destination, and the destination is in no
    whitelist, there being none; the handler raises KeyError at the read
    of WHITE_LIST_IP and installs no Drop. *)
Lemma unconfigured_whitelist_raises_instead_of_drop :
  is_core_switch (Testbed.switch Testbed.edge ∅) = false
  ∧ find_ipv4
      (parsed (Testbed.frame
                 (Testbed.header (Testbed.ip 10 0 0 7) (Testbed.ip 203 0 113 5) None)))
    = Some (Testbed.header (Testbed.ip 10 0 0 7) (Testbed.ip 203 0 113 5) None)
  ∧ resolve (with_config Fixtures.without_WHITE_LIST_IP Testbed.ext) (Testbed.ip 10 0 0 7)
    = Returned (Found "dave")
  ∧ listed (with_config Fixtures.without_WHITE_LIST_IP Testbed.ext)
      "BLOCKED_USERS_OUTSIDE" "dave"
  ∧ ¬ listed (with_config Fixtures.without_WHITE_LIST_IP Testbed.ext)
        "BLOCKED_USERS" "dave"
  ∧ resolve (with_config Fixtures.without_WHITE_LIST_IP Testbed.ext)
      (Testbed.ip 203 0 113 5)
    = Returned NotFound
  ∧ ¬ listed (with_config Fixtures.without_WHITE_LIST_IP Testbed.ext)
        "WHITE_LIST_IP" (IPAddr_str (Testbed.ip 203 0 113 5))
  ∧ _handle_PacketIn (with_config Fixtures.without_WHITE_LIST_IP Testbed.ext)
      (Testbed.frame (Testbed.header (Testbed.ip 10 0 0 7) (Testbed.ip 203 0 113 5) None))
      (Testbed.switch Testbed.edge ∅)
    = (Raised (KeyError "WHITE_LIST_IP"),
       learned
         (Testbed.frame (Testbed.header (Testbed.ip 10 0 0 7) (Testbed.ip 203 0 113 5) None))
         (Testbed.switch Testbed.edge ∅))
  ∧ ¬ decides (with_config Fixtures.without_WHITE_LIST_IP Testbed.ext)
        (Testbed.frame (Testbed.header (Testbed.ip 10 0 0 7) (Testbed.ip 203 0 113 5) None))
        (Testbed.switch Testbed.edge ∅) (Drop srcAndDst).
Proof.
  assert (Hrun :
    _handle_PacketIn (with_config Fixtures.without_WHITE_LIST_IP Testbed.ext)
      (Testbed.frame (Testbed.header (Testbed.ip 10 0 0 7) (Testbed.ip 203 0 113 5) None))
      (Testbed.switch Testbed.edge ∅)
    = (Raised (KeyError "WHITE_LIST_IP"),
       learned
         (Testbed.frame (Testbed.header (Testbed.ip 10 0 0 7) (Testbed.ip 203 0 113 5) None))
         (Testbed.switch Testbed.edge ∅))) by (vm_compute; reflexivity).
  split; [vm_compute; reflexivity|]. split; [reflexivity|].
  split; [vm_compute; reflexivity|]. split.
  { exists "dave". split; [vm_compute; reflexivity|]. apply contains_elem_of.
    vm_compute. reflexivity. }
  split.
  { intros (v & Hv & Hin). vm_compute in Hv. injection Hv as <-.
    apply contains_elem_of in Hin. vm_compute in Hin. discriminate. }
  split; [vm_compute; reflexivity|]. split.
  { intros (v & Hv & _). vm_compute in Hv. discriminate. }
  split; [exact Hrun|].
  intros (ip & _ & Hdrop). rewrite Hrun in Hdrop. discriminate.
Qed.

(** C5, as stated, fails when BLOCKED_USERS_OUTSIDE is not configured:
    alice is listed neither in BLOCKED_USERS nor, there being none, in
    BLOCKED_USERS_OUTSIDE, and the destination resolves to bob, another
    owner; the handler raises KeyError at the read of
    BLOCKED_USERS_OUTSIDE and installs no Drop. *)
Lemma unconfigured_list_raises_for_unrestricted_owner :
  is_core_switch (Testbed.switch Testbed.edge ∅) = false
  ∧ find_ipv4
      (parsed (Testbed.frame
                 (Testbed.header (Testbed.ip 10 0 0 5) (Testbed.ip 10 0 0 6) None)))
    = Some (Testbed.header (Testbed.ip 10 0 0 5) (Testbed.ip 10 0 0 6) None)
  ∧ resolve (with_config Fixtures.without_BLOCKED_USERS_OUTSIDE Testbed.ext)
      (Testbed.ip 10 0 0 5)
    = Returned (Found "alice")
  ∧ ¬ listed (with_config Fixtures.without_BLOCKED_USERS_OUTSIDE Testbed.ext)
        "BLOCKED_USERS" "alice"
  ∧ ¬ listed (with_config Fixtures.without_BLOCKED_USERS_OUTSIDE Testbed.ext)
        "BLOCKED_USERS_OUTSIDE" "alice"
  ∧ resolve (with_config Fixtures.without_BLOCKED_USERS_OUTSIDE Testbed.ext)
      (Testbed.ip 10 0 0 6)
    = Returned (Found "bob")
  ∧ "bob" ≠ "alice"
  ∧ _handle_PacketIn (with_config Fixtures.without_BLOCKED_USERS_OUTSIDE Testbed.ext)
      (Testbed.frame (Testbed.header (Testbed.ip 10 0 0 5) (Testbed.ip 10 0 0 6) None))
      (Testbed.switch Testbed.edge ∅)
    = (Raised (KeyError "BLOCKED_USERS_OUTSIDE"),
       learned
         (Testbed.frame (Testbed.header (Testbed.ip 10 0 0 5) (Testbed.ip 10 0 0 6) None))
         (Testbed.switch Testbed.edge ∅))
  ∧ ¬ ∃ msg,
        policy_drop (with_config Fixtures.without_BLOCKED_USERS_OUTSIDE Testbed.ext)
          (Testbed.frame (Testbed.header (Testbed.ip 10 0 0 5) (Testbed.ip 10 0 0 6) None))
          (Testbed.switch Testbed.edge ∅) msg.
Proof.
  assert (Hrun :
    _handle_PacketIn (with_config Fixtures.without_BLOCKED_USERS_OUTSIDE Testbed.ext)
      (Testbed.frame (Testbed.header (Testbed.ip 10 0 0 5) (Testbed.ip 10 0 0 6) None))
      (Testbed.switch Testbed.edge ∅)
    = (Raised (KeyError "BLOCKED_USERS_OUTSIDE"),
       learned
         (Testbed.frame (Testbed.header (Testbed.ip 10 0 0 5) (Testbed.ip 10 0 0 6) None))
         (Testbed.switch Testbed.edge ∅))) by (vm_compute; reflexivity).
  split; [vm_compute; reflexivity|]. split; [reflexivity|].
  split; [vm_compute; reflexivity|]. split.
  { intros (v & Hv & Hin). vm_compute in Hv. injection Hv as <-.
    apply contains_elem_of in Hin. vm_compute in Hin. discriminate. }
  split.
  { intros (v & Hv & _). vm_compute in Hv. discriminate. }
  split; [vm_compute; reflexivity|]. split; [discriminate|].
  split; [exact Hrun|].
  intros (msg & Hdrop & _). rewrite Hrun in Hdrop. discriminate.
Qed.

(** The theorems at work on the testbed. *)

Ltac evaluate := vm_compute; reflexivity.
Ltac listed := apply contains_elem_of; evaluate.
Ltac not_listed := apply contains_not_elem_of; evaluate.

(** Example B of the specification: bob is listed in BLOCKED_USERS. *)
Lemma blocked_user_suppression_rule_witness :
  ∃ msg,
    _handle_PacketIn Testbed.ext
      (Testbed.frame (Testbed.header (Testbed.ip 10 0 0 6) (Testbed.ip 10 0 0 9) None))
      (Testbed.switch Testbed.edge {[ 2 := 3 ]})
    = (Returned tt,
       sent_more [FlowMod msg]
         (learned
            (Testbed.frame (Testbed.header (Testbed.ip 10 0 0 6) (Testbed.ip 10 0 0 9) None))
            (Testbed.switch Testbed.edge {[ 2 := 3 ]})))
    ∧ priority msg = 12
    ∧ match_ msg = {| dl_src := Some 1; dl_dst := None; dl_type := None;
                      nw_src := Some (Testbed.ip 10 0 0 6); nw_dst := None;
                      tp_dst := None; attrs := ∅ |}
    ∧ idle_timeout msg = 5 ∧ hard_timeout msg = 10
    ∧ actions msg = [].
Proof.
  apply (blocked_user_suppression_rule Testbed.ext
           (Testbed.frame (Testbed.header (Testbed.ip 10 0 0 6) (Testbed.ip 10 0 0 9) None))
           (Testbed.switch Testbed.edge {[ 2 := 3 ]})
           (Testbed.header (Testbed.ip 10 0 0 6) (Testbed.ip 10 0 0 9) None)
           "bob" ["bob"; "carol"]);
    [evaluate | evaluate | evaluate | evaluate | listed].
Defined.

(** carol's colleague bob again, towards an address outside. *)
Lemma edge_blocked_user_dropped_witness :
  decides Testbed.ext
    (Testbed.frame (Testbed.header (Testbed.ip 10 0 0 6) (Testbed.ip 203 0 113 4) None))
    (Testbed.switch Testbed.edge ∅) (Drop srcOnly).
Proof.
  apply (edge_blocked_user_dropped Testbed.ext (Testbed.switch Testbed.edge ∅)
           (Testbed.ip 10 0 0 6) "bob" ["bob"; "carol"]
           ltac:(evaluate) ltac:(evaluate) ltac:(evaluate) ltac:(listed)
           (Testbed.frame (Testbed.header (Testbed.ip 10 0 0 6) (Testbed.ip 203 0 113 4) None))
           (Testbed.header (Testbed.ip 10 0 0 6) (Testbed.ip 203 0 113 4) None));
    evaluate.
Defined.

(** Example C of the specification, and its neighbour address that is
    not listed in WHITE_LIST_IP: dave is listed in BLOCKED_USERS_OUTSIDE. *)
Lemma blocked_outside_unknown_destination_witness :
  decides Testbed.ext
    (Testbed.frame (Testbed.header (Testbed.ip 10 0 0 7) (Testbed.ip 203 0 113 4) None))
    (Testbed.switch Testbed.edge ∅) Allow
  ∧ decides Testbed.ext
      (Testbed.frame (Testbed.header (Testbed.ip 10 0 0 7) (Testbed.ip 203 0 113 5) None))
      (Testbed.switch Testbed.edge ∅) (Drop srcAndDst).
Proof.
  split.
  - apply (blocked_outside_unknown_destination Testbed.ext
             (Testbed.frame (Testbed.header (Testbed.ip 10 0 0 7) (Testbed.ip 203 0 113 4) None))
             (Testbed.switch Testbed.edge ∅)
             (Testbed.header (Testbed.ip 10 0 0 7) (Testbed.ip 203 0 113 4) None)
             "dave" ["bob"; "carol"] ["dave"] ["203.0.113.4"]
             ltac:(evaluate) ltac:(evaluate) ltac:(evaluate) ltac:(evaluate)
             ltac:(not_listed) ltac:(evaluate) ltac:(listed) ltac:(evaluate)
             ltac:(evaluate)).
    listed.
  - apply (blocked_outside_unknown_destination Testbed.ext
             (Testbed.frame (Testbed.header (Testbed.ip 10 0 0 7) (Testbed.ip 203 0 113 5) None))
             (Testbed.switch Testbed.edge ∅)
             (Testbed.header (Testbed.ip 10 0 0 7) (Testbed.ip 203 0 113 5) None)
             "dave" ["bob"; "carol"] ["dave"] ["203.0.113.4"]
             ltac:(evaluate) ltac:(evaluate) ltac:(evaluate) ltac:(evaluate)
             ltac:(not_listed) ltac:(evaluate) ltac:(listed) ltac:(evaluate)
             ltac:(evaluate)).
    not_listed.
Defined.

(** alice is in no list: a frame to a job of bob is dropped, a frame to
    another job of hers (example A) and one to an address outside are
    left to the L2 decision. *)
Lemma unrestricted_owner_drop_iff_other_owner_witness :
  decides Testbed.ext
    (Testbed.frame (Testbed.header (Testbed.ip 10 0 0 5) (Testbed.ip 10 0 0 6) None))
    (Testbed.switch Testbed.edge {[ 2 := 3 ]}) (Drop srcAndDst)
  ∧ decides Testbed.ext
      (Testbed.frame (Testbed.header (Testbed.ip 10 0 0 5) (Testbed.ip 10 0 0 9) None))
      (Testbed.switch Testbed.edge {[ 2 := 3 ]}) Allow
  ∧ decides Testbed.ext
      (Testbed.frame (Testbed.header (Testbed.ip 10 0 0 5) (Testbed.ip 203 0 113 5) None))
      (Testbed.switch Testbed.edge {[ 2 := 3 ]}) Allow.
Proof.
  split; [|split].
  - apply (unrestricted_owner_drop_iff_other_owner Testbed.ext
             (Testbed.frame (Testbed.header (Testbed.ip 10 0 0 5) (Testbed.ip 10 0 0 6) None))
             (Testbed.switch Testbed.edge {[ 2 := 3 ]})
             (Testbed.header (Testbed.ip 10 0 0 5) (Testbed.ip 10 0 0 6) None)
             "alice" ["bob"; "carol"] ["dave"]
             ltac:(evaluate) ltac:(evaluate) ltac:(evaluate) ltac:(evaluate)
             ltac:(not_listed) ltac:(evaluate) ltac:(not_listed))
      with (owner_dst := "bob"); [evaluate | discriminate].
  - apply (unrestricted_owner_drop_iff_other_owner Testbed.ext
             (Testbed.frame (Testbed.header (Testbed.ip 10 0 0 5) (Testbed.ip 10 0 0 9) None))
             (Testbed.switch Testbed.edge {[ 2 := 3 ]})
             (Testbed.header (Testbed.ip 10 0 0 5) (Testbed.ip 10 0 0 9) None)
             "alice" ["bob"; "carol"] ["dave"]
             ltac:(evaluate) ltac:(evaluate) ltac:(evaluate) ltac:(evaluate)
             ltac:(not_listed) ltac:(evaluate) ltac:(not_listed)).
    left. evaluate.
  - apply (unrestricted_owner_drop_iff_other_owner Testbed.ext
             (Testbed.frame (Testbed.header (Testbed.ip 10 0 0 5) (Testbed.ip 203 0 113 5) None))
             (Testbed.switch Testbed.edge {[ 2 := 3 ]})
             (Testbed.header (Testbed.ip 10 0 0 5) (Testbed.ip 203 0 113 5) None)
             "alice" ["bob"; "carol"] ["dave"]
             ltac:(evaluate) ltac:(evaluate) ltac:(evaluate) ltac:(evaluate)
             ltac:(not_listed) ltac:(evaluate) ltac:(not_listed)).
    right. evaluate.
Defined.

(** The oracle answers MAYBE for 10.0.0.11. *)
Lemma non_FOUND_answer_read_as_NOFOUND_witness :
  resolve Testbed.ext (Testbed.ip 10 0 0 11) = Returned NotFound
  ∧ decides Testbed.ext
      (Testbed.frame (Testbed.header (Testbed.ip 10 0 0 11) (Testbed.ip 10 0 0 6) None))
      (Testbed.switch Testbed.edge ∅) Allow.
Proof.
  destruct (non_FOUND_answer_read_as_NOFOUND Testbed.ext (Testbed.ip 10 0 0 11) "MAYBE"
              ltac:(evaluate) ltac:(discriminate)) as (Hres & Hsrc & _).
  split; [exact Hres|].
  apply (Hsrc _ _ (Testbed.header (Testbed.ip 10 0 0 11) (Testbed.ip 10 0 0 6) None));
    evaluate.
Defined.

(** zzhang's HTTP traffic at the core switch. *)
Lemma core_drop_rule_without_timeouts_witness :
  ∃ msg,
    policy_drop Testbed.ext
      (Testbed.frame (Testbed.header (Testbed.ip 10 0 0 10) (Testbed.ip 203 0 113 5)
                        (Some {| dstport := 80 |})))
      (Testbed.switch Testbed.core ∅) msg
    ∧ idle_timeout msg = 0 ∧ hard_timeout msg = 0
    ∧ attrs (match_ msg) !! "idle_timeout" = Some IDLE_TIMEOUT
    ∧ attrs (match_ msg) !! "hard_timeout" = Some HARD_TIMEOUT.
Proof.
  apply (core_drop_rule_without_timeouts Testbed.ext
           (Testbed.frame (Testbed.header (Testbed.ip 10 0 0 10) (Testbed.ip 203 0 113 5)
                             (Some {| dstport := 80 |})))
           (Testbed.switch Testbed.core ∅)
           (Testbed.header (Testbed.ip 10 0 0 10) (Testbed.ip 203 0 113 5)
              (Some {| dstport := 80 |}))
           {| dstport := 80 |}); evaluate.
Defined.

(** An LLDP frame at an edge switch with an empty table is flooded. *)
Lemma lldp_frame_also_forwarded_witness :
  _handle_PacketIn Testbed.ext Testbed.lldp_frame (Testbed.switch Testbed.edge ∅)
  = (Returned tt,
     sent_more [lldp_ack Testbed.lldp_frame; flood_packet_out Testbed.lldp_frame]
       (learned Testbed.lldp_frame (Testbed.switch Testbed.edge ∅))).
Proof.
  exact (lldp_frame_also_forwarded Testbed.ext Testbed.lldp_frame
           (Testbed.switch Testbed.edge ∅) eq_refl).
Defined.

(** Example A of the specification: alice to another job of hers, the
    destination MAC known on port 3, the frame arriving on port 1. *)
Example example_A :
  connection_sent
    (_handle_PacketIn Testbed.ext
       (Testbed.frame (Testbed.header (Testbed.ip 10 0 0 5) (Testbed.ip 10 0 0 9) None))
       (Testbed.switch Testbed.edge {[ 2 := 3 ]})).2
  = [FlowMod {| priority := 10;
                match_ := {| dl_src := Some 1; dl_dst := Some 2; dl_type := None;
                             nw_src := None; nw_dst := None; tp_dst := None;
                             attrs := ∅ |};
                idle_timeout := 5; hard_timeout := 10;
                actions := [ofp_action_output 3]; buffer_id := Some 77 |}].
Proof. vm_compute. reflexivity. Qed.

(** * Further properties *)

(** ** What the handler sends for one event *)

Lemma sent_more_nil self : sent_more [] self = self.
Proof. unfold sent_more. rewrite app_nil_r. by destruct self. Qed.

Lemma sent_more_sent_more msgs msgs' self :
  sent_more msgs' (sent_more msgs self) = sent_more (msgs ++ msgs') self.
Proof. unfold sent_more. cbn. by rewrite app_assoc. Qed.

(** The outcome of the handler in all its cases: an exception with
    nothing sent, or one command, after the acknowledgment if the frame
    is an LLDP frame. *)
Lemma handler_cases ext event self :
  (∃ e, _handle_PacketIn ext event self = (Raised e, learned event self)
        ∧ (type (parsed event) =? LLDP_TYPE) = false)
  ∨ (∃ cmd, _handle_PacketIn ext event self
            = (Returned tt,
               sent_more (if type (parsed event) =? LLDP_TYPE
                          then [lldp_ack event; cmd] else [cmd])
                 (learned event self))
            ∧ (cmd = match macToPort (learned event self) !! dst (parsed event) with
                     | None => flood_packet_out event
                     | Some out =>
                         if out =? port event
                         then loop_drop_rule ext event (parsed event)
                         else directed_rule event (parsed event) out
                     end
               ∨ (type (parsed event) =? LLDP_TYPE) = false
                 ∧ ∃ ip, find_ipv4 (parsed event) = Some ip
                         ∧ (cmd = FlowMod (core_drop_rule event ip)
                            ∨ ∃ scope, cmd = FlowMod (suppression_rule scope event ip)))).
Proof.
  destruct (find_ipv4 (parsed event)) as [ip|] eqn:Hip.
  - pose proof (find_ipv4_not_lldp _ _ Hip) as Hlldp. rewrite Hlldp.
    destruct (is_core_switch self) eqn:Hrole.
    + rewrite (core_handler_refines _ _ _ _ Hrole Hip).
      destruct (spec_core_policy ext (parsed event) ip) as [[|]|e].
      * right. eexists. split; [done|]. right. split; [done|]. exists ip. eauto.
      * right. rewrite l2_learning_eq. eexists. split; [done|]. by left.
      * left. eauto.
    + rewrite (edge_handler_refines _ _ _ _ Hrole Hip).
      destruct (spec_edge_policy ext ip) as [[|scope]|e]; cbn [emit].
      * right. rewrite l2_learning_eq. eexists. split; [done|]. by left.
      * right. eexists. split; [done|]. right. split; [done|]. exists ip. eauto.
      * left. eauto.
  - right. rewrite (handler_without_ipv4 _ _ _ Hip), l2_learning_eq.
    destruct (type (parsed event) =? LLDP_TYPE).
    + rewrite sent_more_sent_more. eexists. split; [done|]. by left.
    + eexists. split; [done|]. by left.
Qed.

(** X6: for one event the handler either raises, and then has sent
    nothing, or returns having sent exactly one command, after the
    acknowledgment, hence two, exactly when the frame has the LLDP
    ethertype; in both cases the table has learned the source. *)
Theorem commands_per_event ext event self :
  match (_handle_PacketIn ext event self).1 with
  | Raised _ => (_handle_PacketIn ext event self).2 = learned event self
  | Returned _ =>
      ∃ cmd, (_handle_PacketIn ext event self).2
             = sent_more (if type (parsed event) =? LLDP_TYPE
                          then [lldp_ack event; cmd] else [cmd])
                 (learned event self)
  end.
Proof.
  destruct (handler_cases ext event self) as [(e & -> & _)|(cmd & -> & _)]; cbn; eauto.
Qed.

(** X7: every command sent for an event refers to the buffer of that
    event, the second one of an LLDP frame included, and every
    packet-out names the arrival port. *)
Theorem commands_refer_to_the_event_buffer ext event self :
  ∃ r msgs,
    _handle_PacketIn ext event self = (r, sent_more msgs (learned event self))
    ∧ Forall (fun msg =>
                buffer_of msg = ofp_buffer_id event
                ∧ ∀ po, msg = PacketOut po → po_in_port po = port event) msgs.
Proof.
  assert (Hl2 : ∀ t : gmap EthAddr Z,
    let cmd := match t !! dst (parsed event) with
               | None => flood_packet_out event
               | Some out => if out =? port event
                             then loop_drop_rule ext event (parsed event)
                             else directed_rule event (parsed event) out
               end in
    buffer_of cmd = ofp_buffer_id event
    ∧ ∀ po, cmd = PacketOut po → po_in_port po = port event).
  { intros t. cbn. destruct (t !! _) as [out|]; [destruct (out =? port event)|];
      (split; [done|]); by intros po [= <-]. }
  destruct (handler_cases ext event self) as [(e & -> & _)|(cmd & -> & Hcmd)].
  - exists (Raised e), []. by rewrite sent_more_nil.
  - eexists _, _. split; [done|].
    assert (buffer_of cmd = ofp_buffer_id event
            ∧ ∀ po, cmd = PacketOut po → po_in_port po = port event) as Hok.
    { destruct Hcmd as [->|(_ & ip & _ & [->|(scope & ->)])]; [apply Hl2|done..]. }
    destruct (type (parsed event) =? LLDP_TYPE); repeat constructor; try apply Hok.
    by intros po [= <-].
Qed.

(** X8: no frame is sent back where it came from: an output action of a
    packet-out is the flood, which leaves out the arrival port, and an
    output action of a flow-mod goes to the port that the table, the
    source of the frame learned, holds for the destination MAC, which is
    not the arrival port. *)
Theorem never_forwards_to_the_arrival_port ext event self :
  ∃ r msgs,
    _handle_PacketIn ext event self = (r, sent_more msgs (learned event self))
    ∧ Forall (fun msg =>
                ∀ p, p ∈ outputs_of msg →
                     match msg with
                     | PacketOut _ => p = OFPP_FLOOD
                     | FlowMod _ =>
                         p ≠ port event
                         ∧ macToPort (learned event self) !! dst (parsed event) = Some p
                     end) msgs.
Proof.
  set (ok := fun msg : ofp_message =>
    ∀ p, p ∈ outputs_of msg →
         match msg with
         | PacketOut _ => p = OFPP_FLOOD
         | FlowMod _ =>
             p ≠ port event
             ∧ macToPort (learned event self) !! dst (parsed event) = Some p
         end).
  assert (Hack : ok (lldp_ack event)) by (intros p Hp; by apply elem_of_nil in Hp).
  destruct (handler_cases ext event self) as [(e & -> & _)|(cmd & -> & Hcmd)].
  - exists (Raised e), []. by rewrite sent_more_nil.
  - eexists _, _. split; [done|].
    assert (ok cmd) as Hok.
    { destruct Hcmd as [->|(_ & ip & _ & [->|(scope & ->)])].
      - destruct (macToPort (learned event self) !! dst (parsed event)) as [out|] eqn:Ht.
        + destruct (Z.eqb_spec out (port event)) as [->|Hne]; intros p Hp; cbn in Hp.
          * by apply elem_of_nil in Hp.
          * apply list_elem_of_singleton in Hp as ->. done.
        + intros p Hp. cbn in Hp. by apply list_elem_of_singleton in Hp.
      - intros p Hp. by apply elem_of_nil in Hp.
      - intros p Hp. by apply elem_of_nil in Hp. }
    destruct (type (parsed event) =? LLDP_TYPE); repeat constructor; done.
Qed.

(** ** Frames outside the policy, and failures inside it *)

(** X9: a frame without an IPv4 header (ARP, say) never reaches the
    policy: the handler returns without an exception, and does the same
    whatever the configuration, the oracle and the ClassAd parser are. *)
Theorem frame_without_ipv4_bypasses_policy ext event self :
  find_ipv4 (parsed event) = None →
  (∃ msgs, _handle_PacketIn ext event self
           = (Returned tt, sent_more msgs (learned event self)))
  ∧ ∀ ext',
      ofp_match_from_packet ext' (parsed event) = ofp_match_from_packet ext (parsed event) →
      _handle_PacketIn ext' event self = _handle_PacketIn ext event self.
Proof.
  intros Hip. split.
  - rewrite (handler_without_ipv4 _ _ _ Hip), l2_learning_eq.
    destruct (type (parsed event) =? LLDP_TYPE); [|by eauto].
    rewrite sent_more_sent_more. eauto.
  - intros ext' Hmatch. rewrite !(handler_without_ipv4 _ _ _ Hip), !l2_learning_eq.
    unfold loop_drop_rule. by rewrite Hmatch.
Qed.

(** X10: when the request for the source address raises (the socket
    fails, or HTCONDOR_MODULE_HOST or HTCONDOR_MODULE_PORT is not
    configured), the handler raises the same exception on an edge switch
    and on the core switch alike, and no command is sent: the frame is
    neither forwarded nor dropped by a rule. *)
Theorem oracle_failure_sends_nothing ext event self ip e :
  find_ipv4 (parsed event) = Some ip →
  request_network_classad ext (srcip ip) = Raised e →
  _handle_PacketIn ext event self = (Raised e, learned event self).
Proof.
  intros Hip Hreq.
  assert (Hres : resolve ext (srcip ip) = Raised e) by (unfold resolve; by rewrite Hreq).
  destruct (is_core_switch self) eqn:Hrole.
  - rewrite (core_handler_refines _ _ _ ip); [|done..].
    unfold spec_core_policy. by rewrite Hres.
  - rewrite (edge_handler_refines _ _ _ ip); [|done..].
    unfold spec_edge_policy. by rewrite Hres.
Qed.

Lemma config_list_missing ext key :
  htcondor_param ext !! key = None → config_list ext key = Raised (KeyError key).
Proof. unfold config_list, param, getitem. by intros ->. Qed.

(** X11: on an edge switch the three configuration lists have no
    default: once the source has resolved to an owner, a missing
    BLOCKED_USERS raises KeyError; for an owner not listed there, a
    missing BLOCKED_USERS_OUTSIDE raises KeyError; and for an owner
    listed there whose destination the oracle does not know, a missing
    WHITE_LIST_IP raises KeyError; each time no command is sent. *)
Theorem missing_list_raises ext event self ip owner :
  is_core_switch self = false →
  find_ipv4 (parsed event) = Some ip →
  resolve ext (srcip ip) = Returned (Found owner) →
  (htcondor_param ext !! "BLOCKED_USERS" = None →
   _handle_PacketIn ext event self
   = (Raised (KeyError "BLOCKED_USERS"), learned event self))
  ∧ (∀ BlockedUsers,
       config_list ext "BLOCKED_USERS" = Returned BlockedUsers → owner ∉ BlockedUsers →
       (htcondor_param ext !! "BLOCKED_USERS_OUTSIDE" = None →
        _handle_PacketIn ext event self
        = (Raised (KeyError "BLOCKED_USERS_OUTSIDE"), learned event self))
       ∧ (∀ BlockedUsersOutside,
            config_list ext "BLOCKED_USERS_OUTSIDE" = Returned BlockedUsersOutside →
            owner ∈ BlockedUsersOutside →
            resolve ext (dstip ip) = Returned NotFound →
            htcondor_param ext !! "WHITE_LIST_IP" = None →
            _handle_PacketIn ext event self
            = (Raised (KeyError "WHITE_LIST_IP"), learned event self))).
Proof.
  intros Hrole Hip Hsrc. rewrite (edge_handler_refines _ _ _ _ Hrole Hip). split.
  - intros Hbu%config_list_missing. unfold spec_edge_policy. by rewrite Hsrc, Hbu.
  - intros BlockedUsers Hbu Hnot.
    rewrite (spec_edge_policy_not_blocked _ _ _ _ Hsrc Hbu Hnot). split.
    + intros Hbo%config_list_missing. by rewrite Hbo.
    + intros BlockedUsersOutside Hbo Hin%contains_elem_of Hdst Hwl%config_list_missing.
      rewrite Hbo, Hdst. run_monad. by rewrite Hin, Hwl.
Qed.

(** ** The core tier *)

Lemma tcp_port_80 packet :
  (match find_tcp packet with Some t => dstport t | None => 0 end =? 80) = true
  ↔ ∃ l4, find_tcp packet = Some l4 ∧ dstport l4 = 80.
Proof.
  destruct (find_tcp packet) as [t|].
  - rewrite Z.eqb_eq. split; [by eauto|]. by intros (l4 & [= <-] & ?).
  - split; [done|]. by intros (l4 & [=] & _).
Qed.

(** X12: on the core switch a frame with an IPv4 header is dropped if
    and only if its source resolves to the owner zzhang and it carries a
    TCP segment to port 80; a resolved source with another owner, another
    port or no TCP segment, and an unresolved source, are left to the L2
    decision. *)
Theorem core_drop_iff_zzhang_http ext event self ip :
  is_core_switch self = true →
  find_ipv4 (parsed event) = Some ip →
  ((∃ msg, policy_drop ext event self msg)
   ↔ resolve ext (srcip ip) = Returned (Found "zzhang")
     ∧ ∃ l4, find_tcp (parsed event) = Some l4 ∧ dstport l4 = 80)
  ∧ (∀ source,
       resolve ext (srcip ip) = Returned source →
       ¬ (source = Found "zzhang"
          ∧ ∃ l4, find_tcp (parsed event) = Some l4 ∧ dstport l4 = 80) →
       decides ext event self Allow).
Proof.
  intros Hrole Hip.
  pose proof (core_handler_refines ext event self ip Hrole Hip) as Hrun.
  unfold spec_core_policy in Hrun.
  pose proof (tcp_port_80 (parsed event)) as Hport.
  destruct (resolve ext (srcip ip)) as [[owner|]|e]; revert Hrun; run_monad; intros Hrun.
  - destruct (String.eqb_spec owner "zzhang") as [->|Hne]; cbn [andb] in Hrun.
    + destruct (_ =? 80) eqn:H80.
      * split; [split|].
        -- intros _. split; [done|]. by apply Hport.
        -- intros _. by exists (core_drop_rule event ip).
        -- intros source [= <-] Hnot. exfalso. apply Hnot. split; [done|]. by apply Hport.
      * split; [split|].
        -- intros (msg & Hdrop & Hprio & _). rewrite Hrun in Hdrop.
           by apply l2_learning_not_priority_12 in Hdrop.
        -- intros (_ & Htcp%Hport). done.
        -- by intros source _ _.
    + split; [split|].
      * intros (msg & Hdrop & Hprio & _). rewrite Hrun in Hdrop.
        by apply l2_learning_not_priority_12 in Hdrop.
      * by intros ([= ->] & _).
      * by intros source _ _.
  - split; [split|].
    + intros (msg & Hdrop & Hprio & _). rewrite Hrun in Hdrop.
      by apply l2_learning_not_priority_12 in Hdrop.
    + by intros ([=] & _).
    + by intros source _ _.
  - split; [split|].
    + intros (msg & Hdrop & _). by rewrite Hrun in Hdrop.
    + by intros ([=] & _).
    + by intros source [=].
Qed.

Lemma request_with_config ext config ip :
  config !! "HTCONDOR_MODULE_HOST" = htcondor_param ext !! "HTCONDOR_MODULE_HOST" →
  config !! "HTCONDOR_MODULE_PORT" = htcondor_param ext !! "HTCONDOR_MODULE_PORT" →
  request_network_classad (with_config config ext) ip = request_network_classad ext ip.
Proof.
  intros Hhost Hport. unfold request_network_classad, param, getitem, with_config.
  cbn [htcondor_param sock_exchange]. by rewrite Hhost, Hport.
Qed.

(** X13: the core switch reads nothing of the configuration but the
    address of the oracle: with any other configuration that names the
    same HTCONDOR_MODULE_HOST and HTCONDOR_MODULE_PORT, one without the
    lists of blocked users among them, the handler does the same. *)
Theorem core_switch_ignores_the_lists ext config event self :
  is_core_switch self = true →
  config !! "HTCONDOR_MODULE_HOST" = htcondor_param ext !! "HTCONDOR_MODULE_HOST" →
  config !! "HTCONDOR_MODULE_PORT" = htcondor_param ext !! "HTCONDOR_MODULE_PORT" →
  _handle_PacketIn (with_config config ext) event self = _handle_PacketIn ext event self.
Proof.
  intros Hrole Hhost Hport.
  destruct (find_ipv4 (parsed event)) as [ip|] eqn:Hip.
  - rewrite !(core_handler_refines _ _ _ ip) by done.
    unfold spec_core_policy, resolve. by rewrite request_with_config.
  - by rewrite !handler_without_ipv4.
Qed.

(** ** The edge tier, the remaining branch *)

(** X14: on an edge switch, for a source owner listed in
    BLOCKED_USERS_OUTSIDE and not in BLOCKED_USERS whose destination
    resolves to an owner: the frame is dropped with a rule on source and
    destination when the owners differ and left to the L2 decision when
    they are the same; WHITE_LIST_IP is not read, so that it neither
    needs to be configured nor opens the way to another owner's job. *)
Theorem blocked_outside_tracked_destination
  ext event self ip owner owner_dst BlockedUsers BlockedUsersOutside :
  is_core_switch self = false →
  find_ipv4 (parsed event) = Some ip →
  resolve ext (srcip ip) = Returned (Found owner) →
  config_list ext "BLOCKED_USERS" = Returned BlockedUsers →
  owner ∉ BlockedUsers →
  config_list ext "BLOCKED_USERS_OUTSIDE" = Returned BlockedUsersOutside →
  owner ∈ BlockedUsersOutside →
  resolve ext (dstip ip) = Returned (Found owner_dst) →
  decides ext event self (if decide (owner = owner_dst) then Allow else Drop srcAndDst).
Proof.
  intros Hrole Hip Hsrc Hbu Hnot Hbo Hin%contains_elem_of Hdst.
  apply (decides_of_policy _ _ _ ip); [done..|].
  rewrite (spec_edge_policy_not_blocked _ _ _ _ Hsrc Hbu Hnot), Hbo, Hdst.
  run_monad. rewrite Hin.
  destruct (String.eqb_spec owner owner_dst); by case_decide.
Qed.

(** X15: on an edge switch, when the three lists are configured and the
    oracle answers for the source and for the destination address, the
    handler decides as the ordered rule list of the specification
    decides on these lists, read as sets, and these two answers: it
    installs the suppression rule of the list's Drop, of the same scope,
    or leaves the frame to the L2 decision on the list's Allow. *)
Theorem edge_tier_decides_as_the_rule_list
  ext event self ip source destination BlockedUsers BlockedUsersOutside WhitelistIPs :
  is_core_switch self = false →
  find_ipv4 (parsed event) = Some ip →
  resolve ext (srcip ip) = Returned source →
  resolve ext (dstip ip) = Returned destination →
  config_list ext "BLOCKED_USERS" = Returned BlockedUsers →
  config_list ext "BLOCKED_USERS_OUTSIDE" = Returned BlockedUsersOutside →
  config_list ext "WHITE_LIST_IP" = Returned WhitelistIPs →
  decides ext event self
    (spec_rule_list (list_to_set BlockedUsers) (list_to_set BlockedUsersOutside)
       (list_to_set WhitelistIPs) source destination (IPAddr_str (dstip ip))).
Proof.
  intros Hrole Hip Hsrc Hdst Hbu Hbo Hwl.
  assert (Hset : ∀ x (l : list string),
            bool_decide (x ∈ (list_to_set l : gset string)) = Py.contains x l).
  { intros x l. destruct (Py.contains x l) eqn:Hc.
    - apply bool_decide_eq_true, elem_of_list_to_set. by apply contains_elem_of.
    - apply bool_decide_eq_false. rewrite elem_of_list_to_set.
      by apply contains_not_elem_of. }
  apply (decides_of_policy _ _ _ ip); [done..|].
  unfold spec_edge_policy, spec_rule_list. rewrite Hsrc. run_monad.
  destruct source as [owner|]; [|done].
  rewrite Hbu, Hbo, Hdst, !Hset. run_monad.
  destruct (Py.contains owner BlockedUsers); [done|].
  destruct (Py.contains owner BlockedUsersOutside).
  - destruct destination as [owner_dst|].
    + destruct (String.eqb_spec owner owner_dst) as [->|Hne].
      * by rewrite bool_decide_eq_true_2.
      * by rewrite bool_decide_eq_false_2.
    + rewrite Hwl. run_monad. by destruct (Py.contains _ WhitelistIPs).
  - destruct destination as [owner_dst|]; [|done].
    destruct (String.eqb_spec owner owner_dst) as [->|Hne].
    + by rewrite bool_decide_eq_true_2.
    + by rewrite bool_decide_eq_false_2.
Qed.

(** ** Reading an answer *)

Lemma string_app_nil_r (s : string) : s ++ EmptyString = s.
Proof.
  induction s as [|c s IH]; [done|].
  change (String c (s ++ EmptyString) = String c s). by rewrite IH.
Qed.

Lemma string_app_assoc (s t u : string) : (s ++ t) ++ u = s ++ t ++ u.
Proof.
  induction s as [|c s IH]; [done|].
  change (String c ((s ++ t) ++ u) = String c (s ++ t ++ u)). by rewrite IH.
Qed.

Lemma fold_left_append (pieces : list string) (acc : string) :
  fold_left (fun acc line => acc ++ line) pieces acc
  = acc ++ fold_left (fun acc line => acc ++ line) pieces EmptyString.
Proof.
  revert acc. induction pieces as [|p pieces IH]; intros acc; cbn [fold_left].
  - by rewrite string_app_nil_r.
  - change (EmptyString ++ p) with p. rewrite IH, (IH p). by rewrite string_app_assoc.
Qed.

Lemma concat_split_LF s :
  fold_left (fun acc line => acc ++ line) (Py.split LF s) EmptyString = without_LF s.
Proof.
  induction s as [|c s IH]; [done|]. cbn [Py.split without_LF].
  destruct (Ascii.eqb c LF).
  - cbn [fold_left]. change (EmptyString ++ EmptyString) with EmptyString. exact IH.
  - destruct (Py.split LF s) as [|piece rest] eqn:Hsplit.
    + by apply split_not_empty in Hsplit.
    + cbn [fold_left] in IH |- *.
      change (EmptyString ++ String c piece) with (String c piece).
      change (EmptyString ++ piece) with piece in IH.
      rewrite fold_left_append in IH. rewrite fold_left_append.
      rewrite <- IH. reflexivity.
Qed.

Lemma drop_1_split_LF s :
  fold_left (fun acc line => acc ++ line) (drop 1 (Py.split LF s)) EmptyString
  = without_LF (after_first_line s).
Proof.
  induction s as [|c s IH]; [done|]. cbn [Py.split after_first_line].
  destruct (Ascii.eqb c LF).
  - cbn [drop]. apply concat_split_LF.
  - destruct (Py.split LF s) as [|piece rest] eqn:Hsplit.
    + by apply split_not_empty in Hsplit.
    + exact IH.
Qed.

(** X16: str_to_classad, on the lines of an answer, hands the ClassAd
    parser the answer without its first line and without any line feed:
    the lines after the sentinel are glued with nothing between them. *)
Theorem str_to_classad_drops_line_feeds ext received :
  str_to_classad ext (Py.split LF received)
  = match classad_ClassAd ext (without_LF (after_first_line received)) with
    | Some ad => Returned ad
    | None => Raised ClassAdError
    end.
Proof. unfold str_to_classad. by rewrite drop_1_split_LF. Qed.

Lemma lstrip_all_space s : all_space s = true → Py.lstrip s = EmptyString.
Proof.
  induction s as [|c s IH]; [done|]. cbn. intros [-> ?]%andb_prop. by apply IH.
Qed.

Lemma rstrip_all_space s : all_space s = true → Py.rstrip s = EmptyString.
Proof.
  induction s as [|c s IH]; [done|]. cbn. intros [-> ?]%andb_prop. by rewrite IH.
Qed.

Lemma lstrip_padding pad s : all_space pad = true → Py.lstrip (pad ++ s) = Py.lstrip s.
Proof.
  induction pad as [|c pad IH]; [done|]. cbn [all_space].
  intros [Hc ?]%andb_prop. change (String c pad ++ s) with (String c (pad ++ s)).
  cbn [Py.lstrip]. rewrite Hc. by apply IH.
Qed.

Lemma rstrip_padding s pad : all_space pad = true → Py.rstrip (s ++ pad) = Py.rstrip s.
Proof.
  intros Hpad. induction s as [|c s IH].
  - by apply rstrip_all_space.
  - change (String c s ++ pad) with (String c (s ++ pad)). cbn [Py.rstrip]. by rewrite IH.
Qed.

Lemma strip_padding before after s :
  all_space before = true → all_space after = true →
  Py.strip (before ++ s ++ after) = Py.strip s.
Proof.
  intros Hb Ha. unfold Py.strip. rewrite lstrip_padding by done.
  induction s as [|c s IH].
  - change (EmptyString ++ after) with after. by rewrite (lstrip_all_space after Ha).
  - change (String c s ++ after) with (String c (s ++ after)). cbn [Py.lstrip].
    destruct (Py.isspace c); [done|].
    change (String c (s ++ after)) with (String c s ++ after).
    by apply rstrip_padding.
Qed.

Lemma request_whitespace_apart ext exchange ip :
  (∀ host port_text request,
     whitespace_apart (sock_exchange ext host port_text request)
       (exchange host port_text request)) →
  request_network_classad (with_exchange exchange ext) ip = request_network_classad ext ip.
Proof.
  intros Hapart. unfold request_network_classad, param, with_exchange.
  cbn [htcondor_param sock_exchange]. run_monad.
  destruct (getitem (htcondor_param ext) "HTCONDOR_MODULE_HOST") as [HOST|]; [|done].
  destruct (getitem (htcondor_param ext) "HTCONDOR_MODULE_PORT") as [PORT|]; [|done].
  specialize (Hapart HOST PORT ("REQUEST" ++ String LF (IPAddr_str ip))).
  unfold whitespace_apart in Hapart.
  destruct (sock_exchange ext HOST PORT _) as [data|], (exchange HOST PORT _) as [data'|];
    try done.
  destruct Hapart as (before & after & Hb & Ha & ->). by rewrite strip_padding.
Qed.

(** X17: whitespace at the two ends of the text that recv(1024) returns
    changes nothing: of two sockets that, conversation by conversation,
    both fail or return texts of at most 1024 bytes of which one is the
    other between blanks, tabs, line feeds or carriage returns,
    request_network_classad returns the same and the handler does the
    same on every event. *)
Theorem whitespace_around_received_text_is_ignored ext exchange :
  recv_bounded ext → recv_bounded (with_exchange exchange ext) →
  (∀ host port_text request,
     whitespace_apart (sock_exchange ext host port_text request)
       (exchange host port_text request)) →
  (∀ ip, request_network_classad (with_exchange exchange ext) ip
         = request_network_classad ext ip)
  ∧ ∀ event self,
      _handle_PacketIn (with_exchange exchange ext) event self
      = _handle_PacketIn ext event self.
Proof.
  intros _ _ Hapart. split; [intros ip; by apply request_whitespace_apart|].
  assert (Hres : ∀ ip, resolve (with_exchange exchange ext) ip = resolve ext ip).
  { intros ip. unfold resolve. by rewrite request_whitespace_apart. }
  intros event self. destruct (find_ipv4 (parsed event)) as [ip|] eqn:Hip.
  - destruct (is_core_switch self) eqn:Hrole.
    + rewrite !(core_handler_refines _ _ _ ip) by done.
      unfold spec_core_policy. by rewrite Hres.
    + rewrite !(edge_handler_refines _ _ _ ip) by done.
      unfold spec_edge_policy. by rewrite !Hres.
  - by rewrite !handler_without_ipv4.
Qed.

(** ** A switch over a sequence of events *)

Lemma handle_events_cons ext event events self :
  handle_events ext (event :: events) self
  = handle_events ext events (_handle_PacketIn ext event self).2.
Proof. done. Qed.

Lemma handler_sent ext event self :
  ∃ msgs, (_handle_PacketIn ext event self).2 = sent_more msgs (learned event self)
          ∧ (List.length msgs <= 2)%nat.
Proof.
  destruct (handler_cases ext event self) as [(e & -> & _)|(cmd & -> & _)].
  - exists []. split; [by rewrite sent_more_nil | cbn; lia].
  - eexists. split; [done|]. destruct (type (parsed event) =? LLDP_TYPE); cbn; lia.
Qed.

Lemma last_port_of_cons mac event events :
  last_port_of mac (event :: events)
  = match last_port_of mac events with
    | Some p => Some p
    | None => if decide (src (parsed event) = mac) then Some (port event) else None
    end.
Proof.
  unfold last_port_of. rewrite filter_cons. case_decide; [|by destruct (last _)].
  destruct (filter _ events) as [|e l] eqn:Hf; [done|].
  rewrite last_cons. by destruct (last (e :: l)).
Qed.

Lemma last_port_of_snoc mac events event :
  last_port_of mac (events ++ [event])%list
  = if decide (src (parsed event) = mac) then Some (port event)
    else last_port_of mac events.
Proof.
  unfold last_port_of. rewrite filter_app, filter_cons, filter_nil.
  case_decide; [by rewrite last_snoc | by rewrite app_nil_r].
Qed.

Lemma last_port_of_None mac events :
  last_port_of mac events = None ↔ ∀ event, event ∈ events → src (parsed event) ≠ mac.
Proof.
  unfold last_port_of. rewrite fmap_None, last_None. split.
  - intros Hnil event Hin Heq. by apply (filter_nil_not_elem_of _ _ event Hnil).
  - intros Hall. destruct (filter _ events) as [|event l] eqn:Hf; [done|].
    assert (event ∈ filter (λ event, src (parsed event) = mac) events) as Hin
      by (rewrite Hf; left).
    apply list_elem_of_filter in Hin as [Heq Hin]. by destruct (Hall event Hin).
Qed.

Lemma handle_events_table ext events self mac :
  macToPort (handle_events ext events self) !! mac
  = match last_port_of mac events with
    | Some p => Some p
    | None => macToPort self !! mac
    end.
Proof.
  revert self. induction events as [|event events IH]; intros self; [done|].
  rewrite handle_events_cons, IH, last_port_of_cons.
  destruct (last_port_of mac events) as [p|]; [done|].
  destruct (handler_sent ext event self) as (msgs & -> & _). cbn.
  case_decide as Heq.
  - subst mac. apply lookup_insert_eq.
  - by apply lookup_insert_ne.
Qed.

(** X18: the table of a switch is last-write-wins over its events:
    after the handler has run on a sequence of events, whatever each was
    answered with, a MAC is mapped to the arrival port of the last event
    that had it as source, or as before if there was none; on a switch
    just connected a MAC is in the table if and only if it was the
    source of an event. *)
Theorem table_is_last_write_wins ext events self mac :
  macToPort (handle_events ext events self) !! mac
  = match last_port_of mac events with
    | Some p => Some p
    | None => macToPort self !! mac
    end
  ∧ ∀ datapath sent,
      macToPort (handle_events ext events (__init__ datapath sent)) !! mac
      = last_port_of mac events
      ∧ (is_Some (macToPort (handle_events ext events (__init__ datapath sent)) !! mac)
         ↔ ∃ event, event ∈ events ∧ src (parsed event) = mac).
Proof.
  split; [apply handle_events_table|]. intros datapath sent.
  assert (Hinit : macToPort (handle_events ext events (__init__ datapath sent)) !! mac
                  = last_port_of mac events).
  { rewrite handle_events_table. cbn. by destruct (last_port_of mac events). }
  split; [done|]. rewrite Hinit. split.
  - intros [p Hsome].
    destruct (filter (λ event, src (parsed event) = mac) events) as [|event l] eqn:Hf.
    + unfold last_port_of in Hsome. by rewrite Hf in Hsome.
    + assert (event ∈ filter (λ event, src (parsed event) = mac) events) as Hin
        by (rewrite Hf; left).
      apply list_elem_of_filter in Hin as [Heq Hin]. eauto.
  - intros (event & Hin & Heq). apply not_eq_None_Some. intros Hnone.
    by apply (proj1 (last_port_of_None mac events) Hnone event).
Qed.

(** X19: over any sequence of events the datapath id of the connection,
    and with it the role of the switch, stays what it was, and the
    commands sent are only added to, at most two for each event. *)
Theorem sent_only_grows ext events self :
  connection_dpid (handle_events ext events self) = connection_dpid self
  ∧ is_core_switch (handle_events ext events self) = is_core_switch self
  ∧ ∃ msgs,
      connection_sent (handle_events ext events self) = (connection_sent self ++ msgs)%list
      ∧ (List.length msgs <= 2 * List.length events)%nat.
Proof.
  assert (H : connection_dpid (handle_events ext events self) = connection_dpid self
    ∧ ∃ msgs,
        connection_sent (handle_events ext events self) = (connection_sent self ++ msgs)%list
        ∧ (List.length msgs <= 2 * List.length events)%nat).
  { revert self. induction events as [|event events IH]; intros self.
    - split; [done|]. exists []. by rewrite app_nil_r.
    - rewrite handle_events_cons.
      destruct (IH (_handle_PacketIn ext event self).2) as (Hd & msgs & Hs & Hlen).
      destruct (handler_sent ext event self) as (first & Hrun & Hfirst).
      rewrite Hd, Hs, Hrun. cbn. split; [done|].
      exists (first ++ msgs)%list. rewrite app_assoc, length_app. split; [done|]. lia. }
  destruct H as (Hd & Hmsgs). split; [done|]. split; [|done].
  unfold is_core_switch. by rewrite Hd.
Qed.

(** X20: on a switch that was just connected and has since handled a
    sequence of events, a frame that the policy allows is flooded if and
    only if its destination MAC has never been the source of a frame,
    this one included; otherwise it gets the loop Drop when the last
    frame from that MAC arrived on the same port, and else the rule that
    forwards to the port of that last frame. *)
Theorem flood_iff_destination_never_seen ext events datapath sent event :
  decides ext event (handle_events ext events (__init__ datapath sent)) Allow →
  _handle_PacketIn ext event (handle_events ext events (__init__ datapath sent))
  = (Returned tt,
     sent_more [match last_port_of (dst (parsed event)) (events ++ [event])%list with
                | None => flood_packet_out event
                | Some out =>
                    if out =? port event then loop_drop_rule ext event (parsed event)
                    else directed_rule event (parsed event) out
                end]
       (learned event (handle_events ext events (__init__ datapath sent))))
  ∧ (_handle_PacketIn ext event (handle_events ext events (__init__ datapath sent))
     = (Returned tt,
        sent_more [flood_packet_out event]
          (learned event (handle_events ext events (__init__ datapath sent))))
     ↔ ∀ earlier, earlier ∈ (events ++ [event])%list →
                  src (parsed earlier) ≠ dst (parsed event)).
Proof.
  intros Hallow. unfold decides in Hallow. rewrite Hallow, l2_learning_eq.
  assert (Htable : macToPort (learned event (handle_events ext events (__init__ datapath sent)))
                     !! dst (parsed event)
                   = last_port_of (dst (parsed event)) (events ++ [event])%list).
  { rewrite last_port_of_snoc. cbn. case_decide as Heq.
    - rewrite <- Heq. apply lookup_insert_eq.
    - rewrite lookup_insert_ne by done. rewrite handle_events_table. cbn.
      by destruct (last_port_of _ events). }
  rewrite Htable. split; [done|]. rewrite <- last_port_of_None.
  destruct (last_port_of (dst (parsed event)) (events ++ [event])%list) as [out|]; [|done].
  split; [|done]. intros Hrun%run_sent_inj. by destruct (out =? port event).
Qed.

(** The theorems above at work on the testbed. *)

(** An ARP frame at an edge switch. *)
Lemma frame_without_ipv4_bypasses_policy_witness :
  ∃ msgs,
    _handle_PacketIn Testbed.ext Fixtures.arp_frame (Testbed.switch Testbed.edge ∅)
    = (Returned tt,
       sent_more msgs (learned Fixtures.arp_frame (Testbed.switch Testbed.edge ∅))).
Proof.
  exact (proj1 (frame_without_ipv4_bypasses_policy Testbed.ext Fixtures.arp_frame
                  (Testbed.switch Testbed.edge ∅) eq_refl)).
Defined.

(** The oracle cannot be reached. *)
Lemma oracle_failure_sends_nothing_witness :
  _handle_PacketIn Fixtures.unreachable
    (Testbed.frame (Testbed.header (Testbed.ip 10 0 0 5) (Testbed.ip 10 0 0 9) None))
    (Testbed.switch Testbed.edge ∅)
  = (Raised socket_error,
     learned
       (Testbed.frame (Testbed.header (Testbed.ip 10 0 0 5) (Testbed.ip 10 0 0 9) None))
       (Testbed.switch Testbed.edge ∅)).
Proof.
  apply (oracle_failure_sends_nothing Fixtures.unreachable _ _
           (Testbed.header (Testbed.ip 10 0 0 5) (Testbed.ip 10 0 0 9) None));
    evaluate.
Defined.

(** alice's frame under a configuration without BLOCKED_USERS. *)
Lemma missing_list_raises_witness :
  _handle_PacketIn (with_config Fixtures.oracle_only Testbed.ext)
    (Testbed.frame (Testbed.header (Testbed.ip 10 0 0 5) (Testbed.ip 10 0 0 9) None))
    (Testbed.switch Testbed.edge ∅)
  = (Raised (KeyError "BLOCKED_USERS"),
     learned
       (Testbed.frame (Testbed.header (Testbed.ip 10 0 0 5) (Testbed.ip 10 0 0 9) None))
       (Testbed.switch Testbed.edge ∅)).
Proof.
  apply (missing_list_raises (with_config Fixtures.oracle_only Testbed.ext)
           (Testbed.frame (Testbed.header (Testbed.ip 10 0 0 5) (Testbed.ip 10 0 0 9) None))
           (Testbed.switch Testbed.edge ∅)
           (Testbed.header (Testbed.ip 10 0 0 5) (Testbed.ip 10 0 0 9) None)
           "alice" ltac:(evaluate) ltac:(evaluate) ltac:(evaluate)).
  evaluate.
Defined.

(** zzhang's HTTP traffic at the core switch is dropped. *)
Lemma core_drop_iff_zzhang_http_witness :
  ∃ msg,
    policy_drop Testbed.ext
      (Testbed.frame (Testbed.header (Testbed.ip 10 0 0 10) (Testbed.ip 203 0 113 5)
                        (Some {| dstport := 80 |})))
      (Testbed.switch Testbed.core ∅) msg.
Proof.
  apply (core_drop_iff_zzhang_http Testbed.ext
           (Testbed.frame (Testbed.header (Testbed.ip 10 0 0 10) (Testbed.ip 203 0 113 5)
                             (Some {| dstport := 80 |})))
           (Testbed.switch Testbed.core ∅)
           (Testbed.header (Testbed.ip 10 0 0 10) (Testbed.ip 203 0 113 5)
              (Some {| dstport := 80 |}))
           ltac:(evaluate) ltac:(evaluate)).
  split; [evaluate|]. exists {| dstport := 80 |}. split; reflexivity.
Defined.

(** bob's frame at the core switch, with and without the lists. *)
Lemma core_switch_ignores_the_lists_witness :
  _handle_PacketIn (with_config Fixtures.oracle_only Testbed.ext)
    (Testbed.frame (Testbed.header (Testbed.ip 10 0 0 6) (Testbed.ip 10 0 0 9) None))
    (Testbed.switch Testbed.core ∅)
  = _handle_PacketIn Testbed.ext
      (Testbed.frame (Testbed.header (Testbed.ip 10 0 0 6) (Testbed.ip 10 0 0 9) None))
      (Testbed.switch Testbed.core ∅).
Proof.
  apply (core_switch_ignores_the_lists Testbed.ext Fixtures.oracle_only); evaluate.
Defined.

(** dave, listed in BLOCKED_USERS_OUTSIDE, to a job of alice. *)
Lemma blocked_outside_tracked_destination_witness :
  decides Testbed.ext
    (Testbed.frame (Testbed.header (Testbed.ip 10 0 0 7) (Testbed.ip 10 0 0 5) None))
    (Testbed.switch Testbed.edge ∅) (Drop srcAndDst).
Proof.
  exact (blocked_outside_tracked_destination Testbed.ext
           (Testbed.frame (Testbed.header (Testbed.ip 10 0 0 7) (Testbed.ip 10 0 0 5) None))
           (Testbed.switch Testbed.edge ∅)
           (Testbed.header (Testbed.ip 10 0 0 7) (Testbed.ip 10 0 0 5) None)
           "dave" "alice" ["bob"; "carol"] ["dave"]
           ltac:(evaluate) ltac:(evaluate) ltac:(evaluate) ltac:(evaluate)
           ltac:(not_listed) ltac:(evaluate) ltac:(listed) ltac:(evaluate)).
Defined.

(** dave, listed in BLOCKED_USERS_OUTSIDE, to an address outside that is
    not listed in WHITE_LIST_IP: the rule list decides Drop. *)
Lemma edge_tier_decides_as_the_rule_list_witness :
  decides Testbed.ext
    (Testbed.frame (Testbed.header (Testbed.ip 10 0 0 7) (Testbed.ip 203 0 113 5) None))
    (Testbed.switch Testbed.edge ∅) (Drop srcAndDst).
Proof.
  exact (edge_tier_decides_as_the_rule_list Testbed.ext
           (Testbed.frame (Testbed.header (Testbed.ip 10 0 0 7) (Testbed.ip 203 0 113 5) None))
           (Testbed.switch Testbed.edge ∅)
           (Testbed.header (Testbed.ip 10 0 0 7) (Testbed.ip 203 0 113 5) None)
           (Found "dave") NotFound ["bob"; "carol"] ["dave"] ["203.0.113.4"]
           ltac:(evaluate) ltac:(evaluate) ltac:(evaluate) ltac:(evaluate)
           ltac:(evaluate) ltac:(evaluate) ltac:(evaluate)).
Defined.

Lemma string_length_app (s t : string) :
  String.length (s ++ t) = (String.length s + String.length t)%nat.
Proof.
  induction s as [|c s IH]; [done|].
  change (S (String.length (s ++ t)) = S (String.length s + String.length t)).
  by rewrite IH.
Qed.

Lemma testbed_answers_short :
  map_Forall (fun _ data => (String.length data <= 1000)%nat) Testbed.directory.
Proof.
  apply map_Forall_to_list. vm_compute. repeat constructor.
Qed.

Lemma testbed_recv_bounded directory config :
  map_Forall (fun _ data => (String.length data <= 1024)%nat) directory →
  recv_bounded (Testbed.installation directory config).
Proof.
  intros Hshort host port_text request data. cbn.
  destruct (Py.split LF request) as [|? [|addr [|]]]; try done.
  intros [= <-]. destruct (directory !! addr) as [answer|] eqn:Hanswer; cbn.
  - by apply (Hshort addr).
  - lia.
Qed.

Lemma directory_in_whitespace_short :
  map_Forall (fun _ data => (String.length data <= 1024)%nat)
    Fixtures.directory_in_whitespace.
Proof.
  unfold Fixtures.directory_in_whitespace. intros addr data.
  rewrite lookup_fmap. destruct (Testbed.directory !! addr) as [answer|] eqn:H; [|done].
  intros [= <-]. pose proof (testbed_answers_short addr answer H) as Hshort.
  unfold Fixtures.in_whitespace. rewrite !string_length_app. cbn in *. lia.
Qed.

Lemma testbed_whitespace_apart host port_text request :
  whitespace_apart (sock_exchange Testbed.ext host port_text request)
    (sock_exchange (Testbed.installation Fixtures.directory_in_whitespace Testbed.config)
       host port_text request).
Proof.
  cbn. destruct (Py.split LF request) as [|? [|addr [|]]]; try done.
  unfold Fixtures.directory_in_whitespace. rewrite lookup_fmap.
  destruct (Testbed.directory !! addr) as [answer|]; cbn.
  - by exists " ", (String (ascii_of_nat 13) (String LF EmptyString)).
  - by exists EmptyString, EmptyString.
Qed.

Lemma testbed_ext_recv_bounded : recv_bounded Testbed.ext.
Proof.
  apply testbed_recv_bounded. intros addr data H.
  pose proof (testbed_answers_short addr data H) as Hshort. cbn in Hshort. lia.
Qed.

Lemma testbed_in_whitespace_recv_bounded :
  recv_bounded
    (with_exchange
       (sock_exchange (Testbed.installation Fixtures.directory_in_whitespace Testbed.config))
       Testbed.ext).
Proof.
  exact (testbed_recv_bounded Fixtures.directory_in_whitespace Testbed.config
           directory_in_whitespace_short).
Qed.

(** Every answer of the testbed between a blank and a carriage return
    with line feed. *)
Lemma whitespace_around_received_text_is_ignored_witness :
  _handle_PacketIn
    (with_exchange
       (sock_exchange (Testbed.installation Fixtures.directory_in_whitespace Testbed.config))
       Testbed.ext)
    (Testbed.frame (Testbed.header (Testbed.ip 10 0 0 6) (Testbed.ip 10 0 0 9) None))
    (Testbed.switch Testbed.edge ∅)
  = _handle_PacketIn Testbed.ext
      (Testbed.frame (Testbed.header (Testbed.ip 10 0 0 6) (Testbed.ip 10 0 0 9) None))
      (Testbed.switch Testbed.edge ∅).
Proof.
  exact (proj2 (whitespace_around_received_text_is_ignored Testbed.ext
                  (sock_exchange
                     (Testbed.installation Fixtures.directory_in_whitespace Testbed.config))
                  testbed_ext_recv_bounded testbed_in_whitespace_recv_bounded
                  testbed_whitespace_apart) _ _).
Defined.

(** After a frame from MAC 2 on port 3, a frame to MAC 2 arriving on
    port 1 is forwarded to port 3. *)
Lemma flood_iff_destination_never_seen_witness :
  _handle_PacketIn Testbed.ext Fixtures.arp_frame
    (handle_events Testbed.ext [Fixtures.arp_reply] (__init__ Testbed.edge []))
  = (Returned tt,
     sent_more [directed_rule Fixtures.arp_frame (parsed Fixtures.arp_frame) 3]
       (learned Fixtures.arp_frame
          (handle_events Testbed.ext [Fixtures.arp_reply] (__init__ Testbed.edge [])))).
Proof.
  exact (proj1 (flood_iff_destination_never_seen Testbed.ext [Fixtures.arp_reply]
                  Testbed.edge [] Fixtures.arp_frame ltac:(evaluate))).
Defined.

(** ** The local network range *)

Import LocalNetwork.

Lemma octet_land_255 d : is_octet d → Z.land d 0xFF = d.
Proof.
  intros Hd. change 0xFF with (Z.ones 8). rewrite Z.land_ones by lia.
  apply Z.mod_small. exact Hd.
Qed.

(** An octet that agrees with the address on the bits of the mask lies
    between the two ends of the range. *)
Lemma masked_octet_in_range d n m :
  is_octet d → 0 <= n → 0 <= m →
  Z.land d m = Z.land n m →
  Z.land n m <= d <= Z.lor n (Z.land (Z.lnot m) 0xFF).
Proof.
  intros Hd Hn Hm Heq. split.
  - rewrite <- Heq. pose proof (Z.sub_land_same_l d m) as Hsub.
    assert (0 <= Z.land d (Z.lnot m)) by (apply Z.land_nonneg; left; apply Hd). lia.
  - apply Z.ldiff_le.
    + apply Z.lor_nonneg. split; [done|]. apply Z.land_nonneg. by right.
    + apply Z.bits_inj'. intros i Hi.
      rewrite Z.ldiff_spec, Z.lor_spec, Z.land_spec, Z.lnot_spec, Z.bits_0 by done.
      assert (Hbit : Z.testbit (Z.land d m) i = Z.testbit (Z.land n m) i) by by rewrite Heq.
      rewrite !Z.land_spec in Hbit.
      rewrite <- (octet_land_255 d Hd) at 1. rewrite Z.land_spec.
      destruct (Z.testbit d i), (Z.testbit n i), (Z.testbit m i), (Z.testbit 255 i);
        done.
Qed.

Lemma prefix_octet_land n k :
  0 <= k <= 8 → is_octet n → Z.land n (256 - 2 ^ k) = n - n mod 2 ^ k.
Proof.
  intros Hk Hn.
  assert (Hm : 256 - 2 ^ k = Z.land 255 (Z.lnot (Z.ones k))).
  { rewrite <- Z.sub_land_same_l. change 255 with (Z.ones 8) at 2.
    rewrite Z.land_comm, Z.land_ones by lia.
    rewrite Z.ones_equiv.
    assert (2 ^ k <= 2 ^ 8) by (apply Z.pow_le_mono_r; lia).
    rewrite (Z.mod_small (Z.pred (2 ^ k))) by lia. lia. }
  rewrite Hm, Z.land_assoc, (octet_land_255 n Hn), <- Z.sub_land_same_l.
  by rewrite Z.land_ones by lia.
Qed.

Lemma prefix_octet_lor n k :
  0 <= k <= 8 → is_octet n →
  Z.lor n (Z.land (Z.lnot (256 - 2 ^ k)) 0xFF) = n - n mod 2 ^ k + 2 ^ k - 1.
Proof.
  intros Hk Hn.
  assert (H2k : 1 <= 2 ^ k <= 2 ^ 8).
  { split; [|apply Z.pow_le_mono_r; lia]. pose proof (Z.pow_pos_nonneg 2 k). lia. }
  assert (Hones : Z.land (Z.lnot (256 - 2 ^ k)) 0xFF = Z.ones k).
  { rewrite Z.land_comm, <- Z.sub_land_same_l.
    rewrite (Z.land_comm 255), octet_land_255 by (unfold is_octet; lia).
    rewrite Z.ones_equiv. lia. }
  rewrite Hones. pose proof (Z.add_lor_land n (Z.ones k)) as Hadd.
  rewrite Z.land_ones in Hadd by lia. rewrite Z.ones_equiv in Hadd at 2. lia.
Qed.

(** For a mask octet whose ones are contiguous from the top, the range
    holds no other octet. *)
Lemma prefix_octet_exact d n m :
  is_octet d → is_octet n → prefix_octet m →
  Z.land n m <= d <= Z.lor n (Z.land (Z.lnot m) 0xFF) →
  Z.land d m = Z.land n m.
Proof.
  intros Hd Hn (k & Hk & ->).
  rewrite !prefix_octet_land, prefix_octet_lor by done.
  assert (0 < 2 ^ k) by (apply Z.pow_pos_nonneg; lia).
  intros Hrange.
  pose proof (Z.div_mod d (2 ^ k)) as Hdd. pose proof (Z.div_mod n (2 ^ k)) as Hdn.
  pose proof (Z.mod_pos_bound d (2 ^ k)) as Hbd. pose proof (Z.mod_pos_bound n (2 ^ k)) as Hbn.
  assert (d / 2 ^ k = n / 2 ^ k) as Hq by nia.
  rewrite Hdd, Hdn at 1 by lia. nia.
Qed.

Ltac run_res := cbv beta iota delta [mbind res_bind mret res_ret].

Lemma octets_of_length ip mask indices net0 mask0 net1 mask1 :
  octets_of ip mask indices net0 mask0 = Ok (net1, mask1) →
  List.length net1 = (List.length net0 + List.length indices)%nat
  ∧ List.length mask1 = (List.length mask0 + List.length indices)%nat.
Proof.
  revert net0 mask0.
  induction indices as [|i indices IH]; intros net0 mask0; cbn [octets_of]; run_res.
  - intros [= <- <-]. cbn. lia.
  - destruct (int_16 _) as [n|]; [|done].
    destruct (int_16 _) as [m|]; [|done].
    intros [Hn Hm]%IH. rewrite length_app in Hn, Hm. cbn in *. lia.
Qed.

Lemma route_arrays_length route net mask :
  route_arrays route = Ok (net, mask) → List.length net = 4%nat ∧ List.length mask = 4%nat.
Proof.
  unfold route_arrays. run_res. destruct route as [lines|]; [|done].
  destruct (item lines 1) as [line|]; [|done].
  destruct (item (split_ws line) 1) as [ip|]; [|done].
  destruct (item (split_ws line) 7) as [mask_word|]; [|done].
  intros H%octets_of_length. exact H.
Qed.

Lemma append_range_four n0 n1 n2 n3 m0 m1 m2 m3 g :
  append_range [n0; n1; n2; n3] [m0; m1; m2; m3] [0; 1; 2; 3]%nat g
  = (Ok tt,
     {| local_network_start :=
          local_network_start g ++ [Z.land n0 m0; Z.land n1 m1; Z.land n2 m2; Z.land n3 m3];
        local_network_end :=
          local_network_end g
          ++ [Z.lor n0 (Z.land (Z.lnot m0) 0xFF); Z.lor n1 (Z.land (Z.lnot m1) 0xFF);
              Z.lor n2 (Z.land (Z.lnot m2) 0xFF); Z.lor n3 (Z.land (Z.lnot m3) 0xFF)] |}).
Proof. cbn. by rewrite <- !app_assoc. Qed.

Lemma four_elements {A} (l : list A) :
  List.length l = 4%nat → ∃ a b c d, l = [a; b; c; d].
Proof. destruct l as [|a [|b [|c [|d [|]]]]]; try done. eauto. Qed.

(** X1: get_network_info either raises, and then leaves both global
    lists as they were, or appends exactly four octets to each: the
    address octets masked, and the address octets with the bits outside
    the mask set; the second loop never raises. *)
Theorem get_network_info_all_or_nothing route g :
  match route_arrays route with
  | Err e => get_network_info route g = (Err e, g)
  | Ok (net, mask) =>
      List.length net = 4%nat ∧ List.length mask = 4%nat
      ∧ get_network_info route g
        = (Ok tt,
           {| local_network_start := local_network_start g ++ zip_with Z.land net mask;
              local_network_end :=
                local_network_end g
                ++ zip_with (fun n m => Z.lor n (Z.land (Z.lnot m) 0xFF)) net mask |})
  end.
Proof.
  unfold get_network_info. destruct (route_arrays route) as [[net mask]|e] eqn:Harrays; [|done].
  destruct (route_arrays_length _ _ _ Harrays) as [Hn Hm].
  split; [done|]. split; [done|].
  destruct (four_elements _ Hn) as (n0 & n1 & n2 & n3 & ->).
  destruct (four_elements _ Hm) as (m0 & m1 & m2 & m3 & ->).
  apply append_range_four.
Qed.

(** *** Reading the two fields *)

Lemma hex_digit_value_bound c d : hex_digit_value c = Some d → 0 <= d < 16.
Proof.
  unfold hex_digit_value.
  set (n := Z.of_nat (nat_of_ascii c)).
  destruct ((48 <=? n) && (n <=? 57)) eqn:H1;
    [apply andb_prop in H1 as [?%Z.leb_le ?%Z.leb_le]; intros [= <-]; lia|].
  destruct ((97 <=? n) && (n <=? 102)) eqn:H2;
    [apply andb_prop in H2 as [?%Z.leb_le ?%Z.leb_le]; intros [= <-]; lia|].
  destruct ((65 <=? n) && (n <=? 70)) eqn:H3;
    [apply andb_prop in H3 as [?%Z.leb_le ?%Z.leb_le]; intros [= <-]; lia|].
  done.
Qed.

Lemma hex_digit_no_sign c d :
  hex_digit_value c = Some d → Ascii.eqb c "+" = false ∧ Ascii.eqb c "-" = false.
Proof.
  intros H. split; apply Ascii.eqb_neq; intros ->; by vm_compute in H.
Qed.

Lemma int_16_two_digits c c' d d' :
  hex_digit_value c = Some d → hex_digit_value c' = Some d' →
  int_16 (String c (String c' EmptyString)) = Ok (16 * d + d').
Proof.
  intros Hc Hc'. unfold int_16.
  destruct (hex_digit_no_sign _ _ Hc) as [-> ->]. cbn [hex_digits].
  rewrite Hc, Hc'. f_equal; lia.
Qed.

(** A word of eight hexadecimal digits and its value. *)
Lemma eight_hex_digits w N :
  String.length w = 8%nat → hex_digits 0 w = Some N →
  ∃ c0 c1 c2 c3 c4 c5 c6 c7 d0 d1 d2 d3 d4 d5 d6 d7,
    w = String c0 (String c1 (String c2 (String c3 (String c4 (String c5
          (String c6 (String c7 EmptyString)))))))
    ∧ hex_digit_value c0 = Some d0 ∧ hex_digit_value c1 = Some d1
    ∧ hex_digit_value c2 = Some d2 ∧ hex_digit_value c3 = Some d3
    ∧ hex_digit_value c4 = Some d4 ∧ hex_digit_value c5 = Some d5
    ∧ hex_digit_value c6 = Some d6 ∧ hex_digit_value c7 = Some d7
    ∧ N = 16 * (16 * (16 * (16 * (16 * (16 * (16 * d0 + d1) + d2) + d3) + d4) + d5) + d6) + d7.
Proof.
  destruct w as [|c0 [|c1 [|c2 [|c3 [|c4 [|c5 [|c6 [|c7 [|]]]]]]]]]; try done.
  intros _. cbn [hex_digits].
  destruct (hex_digit_value c0) as [d0|] eqn:?; [|done].
  destruct (hex_digit_value c1) as [d1|] eqn:?; [|done].
  destruct (hex_digit_value c2) as [d2|] eqn:?; [|done].
  destruct (hex_digit_value c3) as [d3|] eqn:?; [|done].
  destruct (hex_digit_value c4) as [d4|] eqn:?; [|done].
  destruct (hex_digit_value c5) as [d5|] eqn:?; [|done].
  destruct (hex_digit_value c6) as [d6|] eqn:?; [|done].
  destruct (hex_digit_value c7) as [d7|] eqn:?; [|done].
  intros [= <-]. exists c0, c1, c2, c3, c4, c5, c6, c7, d0, d1, d2, d3, d4, d5, d6, d7.
  repeat split; try done; lia.
Qed.

Lemma byte_of_digits d0 d1 d2 d3 d4 d5 d6 d7 :
  0 <= d0 < 16 → 0 <= d1 < 16 → 0 <= d2 < 16 → 0 <= d3 < 16 →
  0 <= d4 < 16 → 0 <= d5 < 16 → 0 <= d6 < 16 → 0 <= d7 < 16 →
  bytes (16 * (16 * (16 * (16 * (16 * (16 * (16 * d0 + d1) + d2) + d3) + d4) + d5) + d6) + d7)
  = [16 * d6 + d7; 16 * d4 + d5; 16 * d2 + d3; 16 * d0 + d1].
Proof.
  intros. unfold bytes, byte. change 0xFF with (Z.ones 8).
  rewrite !Z.land_ones, !Z.shiftr_div_pow2 by lia.
  change (2 ^ (8 * 0)) with 1. change (2 ^ (8 * 1)) with 256.
  change (2 ^ (8 * 2)) with 65536. change (2 ^ (8 * 3)) with 16777216.
  change (2 ^ 8) with 256.
  repeat f_equal; Z.div_mod_to_equations; lia.
Qed.

(** The first loop reads each field as a number stored with its least
    significant byte first. *)
Lemma octets_of_fields ip mask N M :
  String.length ip = 8%nat → String.length mask = 8%nat →
  hex_digits 0 ip = Some N → hex_digits 0 mask = Some M →
  octets_of ip mask [8; 6; 4; 2]%nat [] [] = Ok (bytes N, bytes M).
Proof.
  intros Hlen Hlen' HN HM.
  destruct (eight_hex_digits _ _ Hlen HN)
    as (c0 & c1 & c2 & c3 & c4 & c5 & c6 & c7 & d0 & d1 & d2 & d3 & d4 & d5 & d6 & d7
        & -> & H0 & H1 & H2 & H3 & H4 & H5 & H6 & H7 & ->).
  destruct (eight_hex_digits _ _ Hlen' HM)
    as (a0 & a1 & a2 & a3 & a4 & a5 & a6 & a7 & e0 & e1 & e2 & e3 & e4 & e5 & e6 & e7
        & -> & E0 & E1 & E2 & E3 & E4 & E5 & E6 & E7 & ->).
  rewrite !byte_of_digits by eauto using hex_digit_value_bound.
  cbn [octets_of substring Nat.sub]. run_res.
  rewrite (int_16_two_digits _ _ _ _ H6 H7), (int_16_two_digits _ _ _ _ E6 E7).
  rewrite (int_16_two_digits _ _ _ _ H4 H5), (int_16_two_digits _ _ _ _ E4 E5).
  rewrite (int_16_two_digits _ _ _ _ H2 H3), (int_16_two_digits _ _ _ _ E2 E3).
  rewrite (int_16_two_digits _ _ _ _ H0 H1), (int_16_two_digits _ _ _ _ E0 E1).
  done.
Qed.

Lemma byte_land k x y : 0 <= k → Z.land (byte k x) (byte k y) = byte k (Z.land x y).
Proof.
  intros Hk. unfold byte. apply Z.bits_inj'. intros i Hi.
  rewrite !Z.land_spec, !Z.shiftr_spec, Z.land_spec by done.
  destruct (Z.testbit x _), (Z.testbit y _), (Z.testbit 255 i); done.
Qed.

Lemma byte_lor_lnot k x y :
  0 <= k →
  Z.lor (byte k x) (Z.land (Z.lnot (byte k y)) 0xFF) = byte k (Z.lor x (Z.lnot y)).
Proof.
  intros Hk. unfold byte. apply Z.bits_inj'. intros i Hi.
  rewrite !Z.lor_spec, !Z.land_spec, !Z.lnot_spec, !Z.land_spec, !Z.shiftr_spec,
    Z.lor_spec, Z.lnot_spec by lia.
  destruct (Z.testbit x _), (Z.testbit y _), (Z.testbit 255 i); done.
Qed.

(** X2: when the second line of the routing table has, as its second and
    eighth words, eight hexadecimal digits each, of values N and M,
    get_network_info succeeds and appends the four low bytes, least
    significant first, of the network address N and M and of the
    broadcast address N or not M. *)
Theorem get_network_info_network_and_broadcast lines line ip mask N M g :
  lines !! 1%nat = Some line →
  split_ws line !! 1%nat = Some ip →
  split_ws line !! 7%nat = Some mask →
  String.length ip = 8%nat → String.length mask = 8%nat →
  hex_digits 0 ip = Some N → hex_digits 0 mask = Some M →
  get_network_info (Some lines) g
  = (Ok tt,
     {| local_network_start := local_network_start g ++ bytes (Z.land N M);
        local_network_end := local_network_end g ++ bytes (Z.lor N (Z.lnot M)) |}).
Proof.
  intros Hline Hip Hmask Hlen Hlen' HN HM.
  unfold get_network_info, route_arrays, item. run_res.
  rewrite Hline, Hip, Hmask, (octets_of_fields _ _ _ _ Hlen Hlen' HN HM).
  unfold bytes at 1 2. rewrite append_range_four.
  rewrite !byte_land, !byte_lor_lnot by lia. done.
Qed.

(** *** The check against the range *)

Lemma check_four d0 d1 d2 d3 s0 s1 s2 s3 e0 e1 e2 e3 rest rest' dest_rest :
  check_within_local_network (d0 :: d1 :: d2 :: d3 :: dest_rest)
    {| local_network_start := s0 :: s1 :: s2 :: s3 :: rest;
       local_network_end := e0 :: e1 :: e2 :: e3 :: rest' |}
  = Ok (bool_decide (s0 <= d0 <= e0 ∧ s1 <= d1 <= e1 ∧ s2 <= d2 <= e2 ∧ s3 <= d3 <= e3)).
Proof.
  unfold check_within_local_network. cbn. run_res.
  rewrite !Z.gtb_ltb.
  repeat match goal with
         | |- context [?a <? ?b] => destruct (Z.ltb_spec a b)
         end;
    f_equal; symmetry;
    (apply bool_decide_eq_true; lia) || (apply bool_decide_eq_false; lia).
Qed.

(** X3: once get_network_info has succeeded on the module as loaded,
    with octets for the address and the mask, check_within_local_network
    accepts every address that agrees with the route's address on the
    bits of the mask; and when the one bits of every mask octet are
    contiguous from the top, it accepts no other address. *)
Theorem check_accepts_the_subnet
  route n0 n1 n2 n3 m0 m1 m2 m3 d0 d1 d2 d3 :
  route_arrays route = Ok ([n0; n1; n2; n3], [m0; m1; m2; m3]) →
  Forall is_octet [n0; n1; n2; n3] → Forall is_octet [m0; m1; m2; m3] →
  Forall is_octet [d0; d1; d2; d3] →
  ((Z.land d0 m0 = Z.land n0 m0 ∧ Z.land d1 m1 = Z.land n1 m1
    ∧ Z.land d2 m2 = Z.land n2 m2 ∧ Z.land d3 m3 = Z.land n3 m3) →
   check_within_local_network [d0; d1; d2; d3] (get_network_info route loaded).2
   = Ok true)
  ∧ (Forall prefix_octet [m0; m1; m2; m3] →
     check_within_local_network [d0; d1; d2; d3] (get_network_info route loaded).2
     = Ok true →
     Z.land d0 m0 = Z.land n0 m0 ∧ Z.land d1 m1 = Z.land n1 m1
     ∧ Z.land d2 m2 = Z.land n2 m2 ∧ Z.land d3 m3 = Z.land n3 m3).
Proof.
  intros Harrays Hn Hm Hd.
  unfold get_network_info. rewrite Harrays, append_range_four.
  cbn [snd loaded app local_network_start local_network_end].
  rewrite check_four.
  apply Forall_cons in Hn as [Hn0 Hn], Hm as [Hm0 Hm], Hd as [Hd0 Hd].
  apply Forall_cons in Hn as [Hn1 Hn], Hm as [Hm1 Hm], Hd as [Hd1 Hd].
  apply Forall_cons in Hn as [Hn2 Hn], Hm as [Hm2 Hm], Hd as [Hd2 Hd].
  apply Forall_cons in Hn as [Hn3 _], Hm as [Hm3 _], Hd as [Hd3 _].
  split.
  - intros (H0 & H1 & H2 & H3). f_equal. apply bool_decide_eq_true.
    repeat split; apply masked_octet_in_range; (done || apply Hn0 || apply Hn1
      || apply Hn2 || apply Hn3 || apply Hm0 || apply Hm1 || apply Hm2 || apply Hm3).
  - intros Hp [= (H0 & H1 & H2 & H3)%bool_decide_eq_true].
    apply Forall_cons in Hp as [Hp0 Hp]. apply Forall_cons in Hp as [Hp1 Hp].
    apply Forall_cons in Hp as [Hp2 Hp]. apply Forall_cons in Hp as [Hp3 _].
    repeat split; by apply prefix_octet_exact.
Qed.

(** X4: on the module as loaded, before get_network_info has run,
    check_within_local_network raises IndexError for every address; once
    each global list holds four octets it returns a boolean for every
    address of at least four octets. *)
Theorem check_needs_the_range dest :
  check_within_local_network dest loaded = Err IndexError
  ∧ (∀ g, (4 <= List.length (local_network_start g))%nat →
          (4 <= List.length (local_network_end g))%nat →
          (4 <= List.length dest)%nat →
          ∃ b, check_within_local_network dest g = Ok b).
Proof.
  split.
  - unfold check_within_local_network. cbn. run_res. by destruct dest.
  - intros [starts ends] Hs He Hd. cbn in Hs, He.
    destruct dest as [|d0 [|d1 [|d2 [|d3 dest]]]]; cbn in Hd; try lia.
    destruct starts as [|s0 [|s1 [|s2 [|s3 starts]]]]; cbn in Hs; try lia.
    destruct ends as [|e0 [|e1 [|e2 [|e3 ends]]]]; cbn in He; try lia.
    rewrite check_four. eauto.
Qed.

Lemma check_reads_four dest g starts ends :
  (4 <= List.length (local_network_start g))%nat →
  (4 <= List.length (local_network_end g))%nat →
  check_within_local_network dest
    {| local_network_start := local_network_start g ++ starts;
       local_network_end := local_network_end g ++ ends |}
  = check_within_local_network dest g.
Proof.
  destruct g as [gs ge]. cbn. intros Hs He.
  destruct gs as [|s0 [|s1 [|s2 [|s3 gs]]]]; cbn in Hs; try lia.
  destruct ge as [|e0 [|e1 [|e2 [|e3 ge]]]]; cbn in He; try lia.
  unfold check_within_local_network. cbn. done.
Qed.

Lemma later_call_keeps_check route dest g :
  (4 <= List.length (local_network_start g))%nat →
  (4 <= List.length (local_network_end g))%nat →
  check_within_local_network dest (get_network_info route g).2
  = check_within_local_network dest g.
Proof.
  intros Hs He. pose proof (get_network_info_all_or_nothing route g) as H.
  destruct (route_arrays route) as [[net mask]|e].
  - destruct H as (_ & _ & ->). by apply check_reads_four.
  - by rewrite H.
Qed.

(** X5: get_network_info appends and never replaces: once a call has
    succeeded on the module as loaded, no later call, whatever routing
    table it reads and whether it succeeds or raises, changes any answer
    of check_within_local_network. *)
Theorem later_calls_do_not_move_the_range route route' dest g :
  get_network_info route loaded = (Ok tt, g) →
  check_within_local_network dest (get_network_info route' g).2
  = check_within_local_network dest g.
Proof.
  intros Hfirst.
  pose proof (get_network_info_all_or_nothing route loaded) as H.
  destruct (route_arrays route) as [[net mask]|e]; [|by rewrite H in Hfirst].
  destruct H as (Hn & Hm & H). rewrite H in Hfirst. injection Hfirst as <-.
  apply later_call_keeps_check; cbn; rewrite length_zip_with; lia.
Qed.

(** The routing table of a host on 192.168.0.0/24. *)
Lemma get_network_info_network_and_broadcast_witness :
  get_network_info (Some Fixtures.proc_net_route) loaded = (Ok tt, Fixtures.range).
Proof.
  exact (get_network_info_network_and_broadcast Fixtures.proc_net_route
           (Fixtures.line ["eth0"; "0000A8C0"; "00000000"; "0001"; "0"; "0"; "0";
                           "00FFFFFF"; "0"; "0"; "0"])
           "0000A8C0" "00FFFFFF" 0xA8C0 0xFFFFFF loaded
           eq_refl eq_refl eq_refl eq_refl eq_refl eq_refl eq_refl).
Defined.

Lemma check_accepts_the_subnet_witness :
  check_within_local_network [192; 168; 0; 77]
    (get_network_info (Some Fixtures.proc_net_route) loaded).2 = Ok true.
Proof.
  apply (check_accepts_the_subnet (Some Fixtures.proc_net_route)
           192 168 0 0 255 255 255 0 192 168 0 77 ltac:(evaluate)).
  - repeat constructor; discriminate.
  - repeat constructor; discriminate.
  - repeat constructor; discriminate.
  - repeat split; reflexivity.
Defined.

Lemma check_needs_the_range_witness :
  ∃ b, check_within_local_network [192; 168; 0; 77] Fixtures.range = Ok b.
Proof.
  apply (proj2 (check_needs_the_range [192; 168; 0; 77]) Fixtures.range);
    cbn; repeat constructor.
Defined.

(** A second call that cannot read the file, after the first. *)
Lemma later_calls_do_not_move_the_range_witness :
  check_within_local_network [192; 168; 1; 77]
    (get_network_info None Fixtures.range).2
  = check_within_local_network [192; 168; 1; 77] Fixtures.range.
Proof.
  exact (later_calls_do_not_move_the_range (Some Fixtures.proc_net_route) None
           [192; 168; 1; 77] Fixtures.range eq_refl).
Defined.
